(** * seed_data.py: ingestion of documents into a Milvus collection

    A shallow embedding of [src/seed_data.py].  The module loads records
    from a local JSON file or from a crawler, rewrites their metadata to
    a fixed schema, draws one UUID per document and hands the batch to a
    Milvus vector store.

    Python values are an inductive type, dictionaries are finite maps
    with string keys, exceptions are an error result, and everything the
    module touches outside its own variables (the local files, the
    operating system's random source, the Document objects returned by
    the crawler, the collections of the vector index and the sequence of
    calls made to its client) is one explicit [world] threaded through a
    state-and-exception monad.  The [print] calls of the module write
    to standard output only and are left out. *)

From Stdlib Require Import ZArith String Ascii List Lia.
From Stdlib Require Import Floats.SpecFloat.
From stdpp Require Import gmap strings list fin_maps functions.

Local Open Scope string_scope.
Local Open Scope list_scope.
Local Open Scope Z_scope.

(** ** Python values *)

(** What [json.load] can return, and what a metadata mapping can hold. *)
#[warnings="-register-all"]
Inductive pyval : Type :=
| PyNone
| PyBool (b : bool)
| PyInt (z : Z)
| PyFloat (f : spec_float)
| PyStr (s : string)
| PyList (l : list pyval)
| PyDict (d : gmap string pyval).

(** Truth value testing: [None], [False], zero of either numeric type,
    the empty string and the empty containers are false. *)
Definition truthy (v : pyval) : bool :=
  match v with
  | PyNone => false
  | PyBool b => b
  | PyInt z => negb (z =? 0)
  | PyFloat (S754_zero _) => false
  | PyFloat _ => true
  | PyStr s => negb (String.eqb s "")
  | PyList l => match l with [] => false | _ => true end
  | PyDict d => negb (bool_decide (d = ∅))
  end.

(** [x or y] evaluates to [x] when [x] is true and to [y] otherwise. *)
Definition py_or (x y : pyval) : pyval := if truthy x then x else y.

(** ** Exceptions *)

Inductive exn : Type :=
| OSError               (* open() on a missing or unreadable file *)
| ValueError            (* json.load on a file that is not text or not JSON:
                           UnicodeDecodeError and JSONDecodeError are both
                           subclasses of ValueError *)
| TypeError
| AttributeError
| KeyError (k : string)
| AssertionError
| OtherError (msg : string).

Inductive result (A : Type) : Type :=
| Ok (a : A)
| Raise (e : exn).
Arguments Ok {A} a.
Arguments Raise {A} e.

Definition rbind {A B} (r : result A) (k : A → result B) : result B :=
  match r with
  | Ok a => k a
  | Raise e => Raise e
  end.

(** A list comprehension whose body can raise: elements are evaluated
    left to right and the first exception ends the comprehension. *)
Fixpoint rmap {A B} (f : A → result B) (l : list A) : result (list B) :=
  match l with
  | [] => Ok []
  | x :: r => rbind (f x) (λ y, rbind (rmap f r) (λ ys, Ok (y :: ys)))
  end.

(** ** Attribute and item access on Python values *)

(** [obj.get(k)]: only mappings have the method; a missing key gives [None]. *)
Definition py_get (obj : pyval) (k : string) : result pyval :=
  match obj with
  | PyDict d => Ok (default PyNone (d !! k))
  | _ => Raise AttributeError
  end.

(** [obj[k]] with a string key. *)
Definition py_getitem (obj : pyval) (k : string) : result pyval :=
  match obj with
  | PyDict d =>
      match d !! k with
      | Some v => Ok v
      | None => Raise (KeyError k)
      end
  | _ => Raise TypeError
  end.

(** [for x in obj]: a list yields its elements, a mapping its keys, a
    string its characters; [None], booleans and numbers are not iterable.
    (A [gmap] does not record insertion order; the keys come in the
    order of [map_to_list].) *)
Definition py_iter (obj : pyval) : result (list pyval) :=
  match obj with
  | PyList l => Ok l
  | PyDict d => Ok ((λ kv, PyStr kv.1) <$> map_to_list d)
  | PyStr s => Ok ((λ c, PyStr (String c "")) <$> list_ascii_of_string s)
  | _ => Raise TypeError
  end.

(** A dictionary display [{k1: v1, ..., kn: vn}]: keys are inserted from
    left to right. *)
Definition py_dict (items : list (string * pyval)) : gmap string pyval :=
  fold_left (λ d kv, <[kv.1 := kv.2]> d) items ∅.

(** ** String methods *)

(** Index of the last occurrence of [c], scanning the whole string. *)
Fixpoint rfind (c : ascii) (s : list ascii) : option nat :=
  match s with
  | [] => None
  | x :: r =>
      match rfind c r with
      | Some i => Some (S i)
      | None => if decide (x = c) then Some 0%nat else None
      end
  end.

(** [s.rsplit(sep, 1)] for a one-character separator: split once, at the
    last occurrence of [sep]; without an occurrence the result is [[s]]. *)
Definition rsplit1 (sep : ascii) (s : string) : list string :=
  let l := list_ascii_of_string s in
  match rfind sep l with
  | Some i => [string_of_list_ascii (take i l); string_of_list_ascii (drop (S i) l)]
  | None => [s]
  end.

(** [s.replace(a, b)] for one-character [a] and [b]. *)
Definition str_replace (a b : ascii) (s : string) : string :=
  string_of_list_ascii ((λ c, if decide (c = a) then b else c) <$> list_ascii_of_string s).

(** [os.path.join(a, b)] on a POSIX system. *)
Definition os_path_join (a b : string) : string :=
  if String.prefix "/" b then b
  else if bool_decide (a = "") then b
  else if bool_decide (list.last (list_ascii_of_string a) = Some "/"%char) then a +:+ b
  else a +:+ "/" +:+ b.

(** The document name computed by [load_data_from_local]:
    [filename.rsplit('.', 1)[0].replace('_', ' ')]. *)
Definition doc_name_of (filename : string) : string :=
  str_replace "_" " " (hd "" (rsplit1 "." filename)).

(** ** Documents, the vector store and the world *)

(** A langchain [Document]: the text and its metadata mapping.  The
    constructor is taken to store its two arguments as they are given;
    the library's check that the content is a string is not modelled,
    and what is stated about the content of a built document is stated
    for contents that are absent, false or strings. *)
Record Document : Type := mkDocument {
  page_content : pyval;
  metadata : gmap string pyval;
}.

(** References to [Document] objects.  The crawler returns objects, and
    [seed_milvus_live] assigns to their [metadata] attribute, so these
    live in a store and a list of documents is a list of references. *)
Definition loc : Type := nat.

(** A [Milvus] vector store object: what its constructor was given. *)
Record Milvus : Type := mkMilvus {
  embedding_function : string;
  connection_uri : string;
  collection_name : string;
}.

(** The calls made to the vector store client, in the order made. *)
Inductive client_call : Type :=
| MilvusInit (embedding uri collection : string) (drop_old : bool)
| AddDocuments (uri collection : string) (documents : list Document) (ids : list string).

Record world : Type := World {
  (** local files: path to decoded JSON text, [Some None] for a file
      that opens but that [json.load] cannot decode (bytes that are not
      text, or text that is not JSON), no entry for a file that cannot
      be opened *)
  fs : gmap string (option pyval);
  (** the successive 16-byte results of [os.urandom], read as integers,
      and how many of them have been consumed *)
  entropy : nat → Z;
  drawn : nat;
  (** the [Document] objects *)
  heap : loc → Document;
  (** the vector index: per endpoint and collection name, the stored
      entries (primary key and document) in insertion order; a
      collection that does not exist has no entry *)
  collections : gmap (string * string) (list (string * Document));
  (** the calls made to the client so far, oldest first *)
  calls : list client_call;
}.

Definition set_drawn (n : nat) (w : world) : world :=
  World (fs w) (entropy w) n (heap w) (collections w) (calls w).
Definition set_heap (h : loc → Document) (w : world) : world :=
  World (fs w) (entropy w) (drawn w) h (collections w) (calls w).
Definition set_collections (c : gmap (string * string) (list (string * Document)))
    (w : world) : world :=
  World (fs w) (entropy w) (drawn w) (heap w) c (calls w).
Definition log_call (c : client_call) (w : world) : world :=
  World (fs w) (entropy w) (drawn w) (heap w) (collections w) (calls w ++ [c]).

(** The documents stored under a collection name; none when the
    collection does not exist. *)
Definition stored (w : world) (uri collection : string) : list (string * Document) :=
  default [] (collections w !! (uri, collection)).

(** ** The monad: state and exceptions *)

Definition M (A : Type) : Type := world → result A * world.

Definition ret {A} (a : A) : M A := λ w, (Ok a, w).

Definition bind {A B} (m : M A) (k : A → M B) : M B :=
  λ w, match m w with
       | (Ok a, w') => k a w'
       | (Raise e, w') => (Raise e, w')
       end.

Definition lift {A} (r : result A) : M A := λ w, (r, w).

Declare Scope py_scope.
Delimit Scope py_scope with py.
Notation "x <- m ;; k" := (bind m (λ x, k))
  (at level 100, m at next level, right associativity) : py_scope.
Notation "m ;;; k" := (bind m (λ _, k))
  (at level 100, right associativity) : py_scope.
Notation "x <~ r ;; k" := (rbind r (λ x, k))
  (at level 100, r at next level, right associativity) : py_scope.
Local Open Scope py_scope.

(** A [for] loop over a list. *)
Fixpoint for_each {A} (l : list A) (body : A → M unit) : M unit :=
  match l with
  | [] => ret ()
  | x :: r => body x ;;; for_each r body
  end.

(** [[e for _ in range(n)]]. *)
Fixpoint repeat_M {A} (n : nat) (e : M A) : M (list A) :=
  match n with
  | O => ret []
  | S k => x <- e ;; xs <- repeat_M k e ;; ret (x :: xs)
  end.

(** ** uuid4 *)

(** [os.urandom(16)] read as a big-endian integer: the next draw of the
    random source, below [2^128]. *)
Definition os_urandom16 : M Z :=
  λ w, (Ok (entropy w (drawn w) mod 2 ^ 128), set_drawn (S (drawn w)) w).

(** [UUID(bytes=..., version=4)]: the variant bits are set to RFC 4122
    and the version nibble to 4. *)
Definition uuid4_int (x : Z) : Z :=
  let x := Z.land x (Z.lnot (Z.shiftl 0xc000 48)) in
  let x := Z.lor x (Z.shiftl 0x8000 48) in
  let x := Z.land x (Z.lnot (Z.shiftl 0xf000 64)) in
  Z.lor x (Z.shiftl 4 76).

Definition hex_digit (d : Z) : ascii :=
  match d with
  | 0 => "0" | 1 => "1" | 2 => "2" | 3 => "3" | 4 => "4" | 5 => "5" | 6 => "6" | 7 => "7"
  | 8 => "8" | 9 => "9" | 10 => "a" | 11 => "b" | 12 => "c" | 13 => "d" | 14 => "e"
  | _ => "f"
  end%char.

(** ['%0nx' % x] for [0 <= x < 16^n]: [n] lower-case hexadecimal digits,
    most significant first. *)
Fixpoint hex (n : nat) (x : Z) : list ascii :=
  match n with
  | O => []
  | S k => hex k (x / 16) ++ [hex_digit (x mod 16)]
  end.

(** A slice [l[a:b]]. *)
Definition slice {A} (a b : nat) (l : list A) : list A := take (b - a) (drop a l).

(** [str(UUID)]: the 32 hexadecimal digits in groups of 8-4-4-4-12. *)
Definition uuid_str (x : Z) : string :=
  let h := hex 32 x in
  string_of_list_ascii
    (slice 0 8 h ++ "-"%char :: slice 8 12 h ++ "-"%char :: slice 12 16 h ++
     "-"%char :: slice 16 20 h ++ "-"%char :: drop 20 h).

Definition uuid4 : M Z := x <- os_urandom16 ;; ret (uuid4_int x).

(** [[str(uuid4()) for _ in range(n)]]. *)
Definition fresh_uuids (n : nat) : M (list string) :=
  repeat_M n (u <- uuid4 ;; ret (uuid_str u)).

(** ** The Milvus client *)

(** The client library ([langchain_milvus]) is not part of the module.
    Its constructor is modelled after the module's own docstrings: with
    [drop_old=True] an existing collection of that name is deleted
    ("Collection cu se bi xoa neu da ton tai"), and otherwise nothing is
    created or deleted ("Khong tao collection moi hoac xoa du lieu cu");
    a collection comes into being when documents are first added to it.
    An endpoint that cannot be reached is not modelled. *)
Definition Milvus_init (embedding uri collection : string) (drop_old : bool) : M Milvus :=
  λ w,
    let w := log_call (MilvusInit embedding uri collection drop_old) w in
    (Ok (mkMilvus embedding uri collection),
     if drop_old then set_collections (delete (uri, collection) (collections w)) w else w).

(** [vectorstore.add_documents(documents=..., ids=...)]: one entry per
    document, stored under the identifier at the same position, after
    the entries already there.  Lists of different lengths are refused;
    an empty batch writes nothing.  The client's other checks are not
    modelled (that the identifiers of a batch are pairwise distinct,
    that the values fit the columns of the collection).  The collection
    is the sequence of the inserted entries; it is a store keyed by
    identifier as long as no identifier is repeated. *)
Definition add_documents (vs : Milvus) (documents : list Document) (ids : list string)
    : M unit :=
  λ w,
    let key := (connection_uri vs, collection_name vs) in
    let w := log_call (AddDocuments (connection_uri vs) (collection_name vs) documents ids) w in
    if decide (length documents = length ids) then
      match documents with
      | [] => (Ok (), w)
      | _ =>
          (Ok (),
           set_collections
             (<[key := default [] (collections w !! key) ++ zip ids documents]> (collections w)) w)
      end
    else (Raise AssertionError, w).

(** [OpenAIEmbeddings(model=...)]: the embedding function is identified
    by its model name. *)
Definition OpenAIEmbeddings (model : string) : string := model.

(** ** load_data_from_local *)

Definition load_data_from_local (filename directory : string) : M (pyval * string) :=
  λ w,
    let file_path := os_path_join directory filename in
    match fs w !! file_path with
    | None => (Raise OSError, w)
    | Some None => (Raise ValueError, w)
    | Some (Some data) =>
        (Ok (data, str_replace "_" " " (hd "" (rsplit1 "." filename))), w)
    end.

(** ** seed_milvus *)

(** [doc['metadata'].get(k) or dflt]. *)
Definition metadata_or (doc : pyval) (k : string) (dflt : pyval) : result pyval :=
  md <~ py_getitem doc "metadata" ;;
  v <~ py_get md k ;;
  Ok (py_or v dflt).

(** The [Document(...)] expression of the comprehension in [seed_milvus],
    its sub-expressions evaluated in the order written. *)
Definition make_document (doc : pyval) (doc_name : string) : result Document :=
  content <~ py_get doc "page_content" ;;
  source <~ metadata_or doc "source" (PyStr "") ;;
  content_type <~ metadata_or doc "content_type" (PyStr "text/plain") ;;
  title <~ metadata_or doc "title" (PyStr "") ;;
  description <~ metadata_or doc "description" (PyStr "") ;;
  language <~ metadata_or doc "language" (PyStr "en") ;;
  start_index <~ metadata_or doc "start_index" (PyInt 0) ;;
  Ok (mkDocument (py_or content (PyStr ""))
        (py_dict [("source", source); ("content_type", content_type); ("title", title);
                  ("description", description); ("language", language);
                  ("doc_name", PyStr doc_name); ("start_index", start_index)])).

(** The comprehension [[Document(...) for doc in local_data]]. *)
Definition make_documents (local_data : pyval) (doc_name : string) : result (list Document) :=
  items <~ py_iter local_data ;;
  rmap (λ doc, make_document doc doc_name) items.

Definition seed_milvus (URI_link collection filename directory : string) : M Milvus :=
  let embeddings := OpenAIEmbeddings "text-embedding-3-large" in
  loaded <- load_data_from_local filename directory ;;
  let '(local_data, doc_name) := loaded in
  documents <- lift (make_documents local_data doc_name) ;;
  uuids <- fresh_uuids (length documents) ;;
  vectorstore <- Milvus_init embeddings URI_link collection true ;;
  add_documents vectorstore documents uuids ;;;
  ret vectorstore.

(** ** seed_milvus_live *)

(** The dictionary built in the loop body of [seed_milvus_live]. *)
Definition live_metadata (md : gmap string pyval) (doc_name : string) : gmap string pyval :=
  py_dict [("source", py_or (default PyNone (md !! "source")) (PyStr ""));
           ("content_type", py_or (default PyNone (md !! "content_type")) (PyStr "text/plain"));
           ("title", py_or (default PyNone (md !! "title")) (PyStr ""));
           ("description", py_or (default PyNone (md !! "description")) (PyStr ""));
           ("language", py_or (default PyNone (md !! "language")) (PyStr "en"));
           ("doc_name", PyStr doc_name);
           ("start_index", py_or (default PyNone (md !! "start_index")) (PyInt 0))].

(** The loop body: build the dictionary from [doc.metadata], then assign
    it to [doc.metadata]. *)
Definition update_metadata (doc_name : string) (doc : loc) : M unit :=
  λ w,
    let d := heap w doc in
    (Ok (), set_heap (<[doc := mkDocument (page_content d) (live_metadata (metadata d) doc_name)]>
                        (heap w)) w).

(** The crawler is not part of the module: [crawl_web] is a parameter.
    It returns a list of [Document] objects, which it creates in the
    store, or raises. *)
Definition crawler : Type := string → (loc → Document) → result (list loc) * (loc → Document).

Definition run_crawler (crawl_web : crawler) (URL : string) : M (list loc) :=
  λ w, let '(r, h) := crawl_web URL (heap w) in (r, set_heap h w).

Definition seed_milvus_live (crawl_web : crawler) (URL URI_link collection doc_name : string)
    : M Milvus :=
  let embeddings := OpenAIEmbeddings "text-embedding-3-large" in
  documents <- run_crawler crawl_web URL ;;
  for_each documents (update_metadata doc_name) ;;;
  uuids <- fresh_uuids (length documents) ;;
  vectorstore <- Milvus_init embeddings URI_link collection false ;;
  contents <- (λ w, (Ok (heap w <$> documents), w)) ;;
  add_documents vectorstore contents uuids ;;;
  ret vectorstore.

(** ** connect_to_milvus *)

Definition connect_to_milvus (URI_link collection : string) : M Milvus :=
  let embeddings := OpenAIEmbeddings "text-embedding-3-large" in
  vectorstore <- Milvus_init embeddings URI_link collection false ;;
  ret vectorstore.

(** ** main *)

(** [main()] seeds the collection [data_test] of the local server from
    [data_v3/stack.json]; the call to [seed_milvus_live] in it is
    commented out.  It returns [None]. *)
Definition main : M unit :=
  seed_milvus "http://localhost:19530" "data_test" "stack.json" "data_v3" ;;;
  ret ().

(** ** Vocabulary of the specification *)

(** [c] occurs in [s]. *)
Definition str_contains (c : ascii) (s : string) : Prop := c ∈ list_ascii_of_string s.

(** [t] is [s] with every underscore replaced by a space: the same
    length, a space wherever [s] has an underscore and the character of
    [s] everywhere else. *)
Definition underscores_to_spaces (s t : string) : Prop :=
  String.length t = String.length s ∧
  ∀ i c, String.get i s = Some c →
         String.get i t = Some (if decide (c = "_"%char) then " "%char else c).


(** The six bits of a version-4 UUID that do not come from the random
    source: bits 62 and 63 hold the variant [10], bits 76 to 79 the
    version [0100]. *)
Definition uuid4_fixed_bit (i : Z) : option bool :=
  if decide (i = 63 ∨ i = 78) then Some true
  else if decide (i = 62 ∨ i = 76 ∨ i = 77 ∨ i = 79) then Some false
  else None.

(** The identifier computed from the draw at position [i] of the random
    source. *)
Definition uuid_at (w : world) (i : nat) : string :=
  uuid_str (uuid4_int (entropy w i mod 2 ^ 128)).

(** What one pass of the loop body of [seed_milvus_live] makes of a
    document, and what the whole loop makes of the store. *)
Definition normalized (doc_name : string) (d : Document) : Document :=
  mkDocument (page_content d) (live_metadata (metadata d) doc_name).

Definition normalize_all (doc_name : string) (docs : list loc) (h : loc → Document)
    : loc → Document :=
  foldl (λ h l, <[l := normalized doc_name (h l)]> h) h docs.

(** The canonical metadata schema: its keys, and the default of each of
    the six fields taken from the source record. *)
Definition schema_keys : gset string :=
  {[ "source"; "content_type"; "title"; "description"; "language"; "doc_name";
     "start_index" ]}.

Definition schema_defaults : list (string * pyval) :=
  [("source", PyStr ""); ("content_type", PyStr "text/plain"); ("title", PyStr "");
   ("description", PyStr ""); ("language", PyStr "en"); ("start_index", PyInt 0)].

(** Field [k] of [out] holds the value [src] has for [k] when that value
    is present and true, and [dflt] otherwise. *)
Definition populated (src out : gmap string pyval) (k : string) (dflt : pyval) : Prop :=
  match src !! k with
  | Some v => out !! k = Some (if truthy v then v else dflt)
  | None => out !! k = Some dflt
  end.

(** [out] is the canonical metadata for source metadata [src] and
    document name [doc_name]: exactly the seven keys, the six fields
    populated, the document name injected, and no value [None]. *)
Definition canonical (src : gmap string pyval) (doc_name : string)
    (out : gmap string pyval) : Prop :=
  dom out = schema_keys ∧
  Forall (λ kd, populated src out kd.1 kd.2) schema_defaults ∧
  out !! "doc_name" = Some (PyStr doc_name) ∧
  ∀ k, out !! k ≠ Some PyNone.

(** The content rule: the source value when present and true, the empty
    string otherwise. *)
Definition content_or_empty (src : option pyval) : pyval :=
  match src with
  | Some v => if truthy v then v else PyStr ""
  | None => PyStr ""
  end.

(** The shape of a record of the local file: a mapping with a metadata
    mapping (the content and every metadata field are optional). *)
Definition record_shaped (r : pyval) : Prop :=
  ∃ d m, r = PyDict d ∧ d !! "metadata" = Some (PyDict m).

(** The shape of the local file: a list of such records. *)
Definition source_shaped (data : pyval) : Prop :=
  ∃ records, data = PyList records ∧ Forall record_shaped records.

(** The content rule applies to a source content that is absent, false
    or a string; the [Document] constructor of the library checks other
    values, which is not modelled. *)
Definition content_admissible (src : option pyval) : Prop :=
  match src with
  | Some v => truthy v = false ∨ ∃ s, v = PyStr s
  | None => True
  end.



(** A call to the client passes as many identifiers as documents. *)
Definition balanced (c : client_call) : Prop :=
  match c with
  | AddDocuments _ _ documents ids => length documents = length ids
  | MilvusInit _ _ _ _ => True
  end.

(** A world for the examples: no files, a random source that returns
    the same sixteen zero bytes at every draw, documents without
    metadata, an index without collections. *)
Definition world0 : world :=
  World ∅ (λ _, 0) 0 (λ _, mkDocument (PyStr "") ∅) ∅ [].

(** Inputs for the examples: a record with some metadata, among it a
    false value and a [doc_name] of its own; a record with an empty
    metadata mapping; a world with two files of such records, a random
    source whose [n]-th draw is [n], and crawled documents that all carry
    the first record's metadata; a crawler that returns three documents,
    the first and the last being the same object. *)
Definition example_metadata : gmap string pyval :=
  <["title" := PyStr "Intro"]> (<["language" := PyStr ""]> (<["doc_name" := PyStr "other"]> ∅)).

Definition example_record : gmap string pyval :=
  <["page_content" := PyStr "hello"]> (<["metadata" := PyDict example_metadata]> ∅).

Definition example_bare_record : gmap string pyval := <["metadata" := PyDict ∅]> ∅.

Definition example_world : world :=
  World (<["data_v3/stack_guide.json" :=
             Some (PyList [PyDict example_record; PyDict example_bare_record])]>
         (<["data_v3/faq.json" := Some (PyList [PyDict example_bare_record])]> ∅))
        Z.of_nat 0 (λ _, mkDocument (PyStr "page") example_metadata) ∅ [].

Definition example_crawler : crawler := λ _ h, (Ok [0; 1; 0]%nat, h).

Definition example_documents (doc_name : string) : list Document :=
  [mkDocument (PyStr "hello") (live_metadata example_metadata doc_name);
   mkDocument (PyStr "") (live_metadata ∅ doc_name)].

(** More inputs for the examples: a world whose files are not lists of
    well-formed records, and a crawler that raises. *)
Definition example_broken_world : world :=
  World (<["data_v3/broken.json" :=
             Some (PyList [PyDict example_record;
                           PyDict {["page_content" := PyStr "text"]};
                           PyNone])]>
         (<["data_v3/object.json" := Some (PyDict example_record)]> ∅))
        Z.of_nat 0 (λ _, mkDocument (PyStr "page") example_metadata) ∅ [].

Definition failing_crawler : crawler := λ _ h, (Raise (OtherError "timeout"), h).

Definition example_main_world : world :=
  World {["data_v3/stack.json" := Some (PyList [PyDict example_record])]}
        Z.of_nat 0 (λ _, mkDocument (PyStr "page") example_metadata)
        {[("http://localhost:19530", "other") := [("id", mkDocument (PyStr "kept") ∅)]]} [].

Definition empty_crawler : crawler := λ _ h, (Ok [], h).



(** * Properties *)

(** ** Strings *)

Section strings.
Implicit Types (s t : string) (l k : list ascii) (c : ascii).

Lemma list_ascii_of_string_app s t :
  list_ascii_of_string (s +:+ t) = list_ascii_of_string s ++ list_ascii_of_string t.
Proof. induction s as [|a s IH]; simpl; [done | by rewrite IH]. Qed.

Lemma get_string_of_list_ascii l i :
  String.get i (string_of_list_ascii l) = l !! i.
Proof.
  revert i. induction l as [|a l IH]; intros [|i]; simpl; auto.
Qed.

Lemma length_string_of_list_ascii l :
  String.length (string_of_list_ascii l) = length l.
Proof. induction l as [|a l IH]; simpl; [done | by rewrite IH]. Qed.

Lemma length_list_ascii_of_string s :
  length (list_ascii_of_string s) = String.length s.
Proof. induction s as [|a s IH]; simpl; [done | by rewrite IH]. Qed.

Lemma get_list_ascii_of_string s i :
  list_ascii_of_string s !! i = String.get i s.
Proof.
  rewrite <- (string_of_list_ascii_of_string s) at 2.
  by rewrite get_string_of_list_ascii.
Qed.

Lemma rfind_absent c l : c ∉ l → rfind c l = None.
Proof.
  induction l as [|x l IH]; simpl; [done |].
  intros Hc. rewrite IH by set_solver.
  destruct (decide (x = c)) as [->|]; [set_solver | done].
Qed.

Lemma rfind_last c l k : c ∉ k → rfind c (l ++ c :: k) = Some (length l).
Proof.
  intros Hc. induction l as [|x l IH]; simpl.
  - rewrite rfind_absent by done. by destruct (decide (c = c)).
  - by rewrite IH.
Qed.

Lemma rsplit1_last_sep c s t :
  ¬ str_contains c t → rsplit1 c (s +:+ String c t) = [s; t].
Proof.
  intros Hc. unfold rsplit1.
  rewrite list_ascii_of_string_app. simpl.
  rewrite rfind_last by done.
  rewrite take_app_length.
  change (list_ascii_of_string s ++ c :: list_ascii_of_string t)
    with (list_ascii_of_string s ++ [c] ++ list_ascii_of_string t).
  rewrite app_assoc.
  replace (S (length (list_ascii_of_string s)))
    with (length (list_ascii_of_string s ++ [c])) by (rewrite length_app; simpl; lia).
  rewrite drop_app_length.
  by rewrite !string_of_list_ascii_of_string.
Qed.

Lemma rsplit1_no_sep c s : ¬ str_contains c s → rsplit1 c s = [s].
Proof. intros Hc. unfold rsplit1. by rewrite rfind_absent. Qed.

Lemma str_replace_spec s :
  underscores_to_spaces s (str_replace "_" " " s).
Proof.
  unfold underscores_to_spaces, str_replace. split.
  - by rewrite length_string_of_list_ascii, length_fmap, length_list_ascii_of_string.
  - intros i c Hi.
    rewrite get_string_of_list_ascii, list_lookup_fmap, get_list_ascii_of_string, Hi.
    done.
Qed.
End strings.

(** ** UUIDs *)

Section uuid.
Implicit Types (x y d : Z) (n : nat) (h : list ascii).


Lemma length_hex n x : length (hex n x) = n.
Proof.
  revert x. induction n as [|n IH]; intros x; simpl; [done |].
  rewrite length_app, IH. simpl. lia.
Qed.



Lemma uuid4_int_testbit x i :
  0 ≤ i → Z.testbit (uuid4_int x) i = default (Z.testbit x i) (uuid4_fixed_bit i).
Proof.
  intros Hi. unfold uuid4_int.
  change (Z.shiftl 0xc000 48) with (Z.lor (2 ^ 62) (2 ^ 63)).
  change (Z.shiftl 0x8000 48) with (2 ^ 63).
  change (Z.shiftl 0xf000 64) with (Z.lor (Z.lor (2 ^ 76) (2 ^ 77)) (Z.lor (2 ^ 78) (2 ^ 79))).
  change (Z.shiftl 4 76) with (2 ^ 78).
  cbv zeta.
  repeat first [rewrite Z.lor_spec | rewrite Z.land_spec | rewrite Z.lnot_spec by lia].
  rewrite !Z.pow2_bits_eqb by lia.
  unfold uuid4_fixed_bit.
  repeat match goal with
         | |- context [?a =? i] => destruct (Z.eqb_spec a i)
         end;
    repeat case_decide; try lia; destruct (Z.testbit x i); reflexivity.
Qed.


End uuid.

(** ** The monad and the loops *)

Section monad.
Lemma fresh_uuids_run n w :
  fresh_uuids n w = (Ok (uuid_at w <$> seq (drawn w) n), set_drawn (drawn w + n) w).
Proof.
  revert w. induction n as [|n IH]; intros w.
  - destruct w. unfold set_drawn. simpl. by rewrite Nat.add_0_r.
  - unfold fresh_uuids in *. simpl. unfold bind at 1. unfold bind at 1.
    unfold uuid4 at 1, bind at 1, os_urandom16 at 1, ret at 1, ret at 1.
    unfold bind at 1. rewrite IH. unfold ret. simpl.
    unfold set_drawn. simpl. do 3 f_equal. lia.
Qed.

Lemma for_each_update_run doc_name docs w :
  for_each docs (update_metadata doc_name) w =
  (Ok (), set_heap (normalize_all doc_name docs (heap w)) w).
Proof.
  revert w. induction docs as [|l docs IH]; intros w.
  - by destruct w.
  - simpl. unfold bind, update_metadata at 1. rewrite IH. by destruct w.
Qed.
End monad.

Section schema.
Implicit Types (m : gmap string pyval) (v dflt : pyval).

Lemma py_or_idemp v dflt : py_or (py_or v dflt) dflt = py_or v dflt.
Proof. unfold py_or. destruct (truthy v) eqn:Hv; [by rewrite Hv | by destruct (truthy dflt)]. Qed.

Lemma py_or_not_None v dflt : dflt ≠ PyNone → py_or v dflt ≠ PyNone.
Proof. unfold py_or. destruct (truthy v) eqn:Hv; [| done]. intros _ ->. done. Qed.

Lemma live_metadata_lookup m doc_name k :
  live_metadata m doc_name !! k =
    if decide (k = "source") then Some (py_or (default PyNone (m !! "source")) (PyStr ""))
    else if decide (k = "content_type")
         then Some (py_or (default PyNone (m !! "content_type")) (PyStr "text/plain"))
    else if decide (k = "title") then Some (py_or (default PyNone (m !! "title")) (PyStr ""))
    else if decide (k = "description")
         then Some (py_or (default PyNone (m !! "description")) (PyStr ""))
    else if decide (k = "language")
         then Some (py_or (default PyNone (m !! "language")) (PyStr "en"))
    else if decide (k = "doc_name") then Some (PyStr doc_name)
    else if decide (k = "start_index")
         then Some (py_or (default PyNone (m !! "start_index")) (PyInt 0))
    else None.
Proof.
  unfold live_metadata, py_dict. simpl.
  repeat case_decide; simplify_map_eq; done.
Qed.

Lemma live_metadata_dom m doc_name : dom (live_metadata m doc_name) = schema_keys.
Proof.
  unfold live_metadata, py_dict, schema_keys. simpl.
  rewrite !dom_insert_L, dom_empty_L. set_solver.
Qed.
Lemma live_metadata_idemp m doc_name :
  live_metadata (live_metadata m doc_name) doc_name = live_metadata m doc_name.
Proof.
  apply map_eq. intros k.
  rewrite (live_metadata_lookup (live_metadata m doc_name)).
  rewrite !live_metadata_lookup. simpl.
  repeat case_decide; simpl; rewrite ?py_or_idemp; done.
Qed.

Lemma normalized_idemp doc_name d :
  normalized doc_name (normalized doc_name d) = normalized doc_name d.
Proof. unfold normalized. simpl. by rewrite live_metadata_idemp. Qed.

Lemma normalize_all_lookup doc_name docs h l :
  normalize_all doc_name docs h l =
    if decide (l ∈ docs) then normalized doc_name (h l) else h l.
Proof.
  revert h. induction docs as [|x docs IH]; intros h.
  - rewrite decide_False by set_solver. done.
  - change (normalize_all doc_name (x :: docs) h)
      with (normalize_all doc_name docs (<[x := normalized doc_name (h x)]> h)).
    rewrite IH.
    destruct (decide (l = x)) as [->|Hne].
    + rewrite fn_lookup_insert, (decide_True (P := x ∈ x :: docs)) by (by constructor).
      destruct (decide (x ∈ docs)); [apply normalized_idemp | done].
    + rewrite fn_lookup_insert_ne by done.
      destruct (decide (l ∈ docs)).
      * by rewrite decide_True by (by constructor).
      * by rewrite decide_False by (by intros [?|?]%elem_of_cons).
Qed.
End schema.

Section local.
Implicit Types (d m : gmap string pyval) (r : pyval).

Lemma make_document_shaped d m doc_name :
  d !! "metadata" = Some (PyDict m) →
  make_document (PyDict d) doc_name =
    Ok (mkDocument (py_or (default PyNone (d !! "page_content")) (PyStr ""))
          (live_metadata m doc_name)).
Proof.
  intros Hm. unfold make_document, metadata_or. simpl. rewrite Hm. reflexivity.
Qed.

Lemma make_document_unshaped r doc_name :
  ¬ record_shaped r → ∃ e, make_document r doc_name = Raise e.
Proof.
  intros Hr. unfold make_document, metadata_or.
  destruct r as [| | | | | |d]; simpl; try by eexists.
  destruct (d !! "metadata") as [md|] eqn:Hmd; simpl; [| by eexists].
  destruct md as [| | | | | |m]; simpl; try by eexists.
  destruct Hr. by exists d, m.
Qed.

Lemma rmap_length {A B} (f : A → result B) (l : list A) (k : list B) :
  rmap f l = Ok k → Forall2 (λ x y, f x = Ok y) l k.
Proof.
  revert k. induction l as [|x l IH]; intros k; simpl.
  - intros [= <-]. constructor.
  - destruct (f x) as [y|] eqn:Hx; simpl; [| done].
    destruct (rmap f l) as [ys|] eqn:Hl; simpl; [| done].
    intros [= <-]. constructor; [done | by apply IH].
Qed.
End local.
Section runs.
Implicit Types (w : world) (uri c : string).

Lemma length_fresh w (n a : nat) : length (uuid_at w <$> seq a n) = n.
Proof. by rewrite length_fmap, length_seq. Qed.

(** [seed_milvus] when the file decodes and the comprehension succeeds. *)
Lemma seed_milvus_run uri c filename directory w data docs :
  fs w !! os_path_join directory filename = Some (Some data) →
  make_documents data (doc_name_of filename) = Ok docs →
  let ids := uuid_at w <$> seq (drawn w) (length docs) in
  seed_milvus uri c filename directory w =
    (Ok (mkMilvus "text-embedding-3-large" uri c),
     World (fs w) (entropy w) (drawn w + length docs) (heap w)
       (match docs with
        | [] => delete (uri, c) (collections w)
        | _ => <[(uri, c) := zip ids docs]> (collections w)
        end)
       (calls w ++ [MilvusInit "text-embedding-3-large" uri c true;
                    AddDocuments uri c docs ids])).
Proof.
  intros Hfile Hdocs ids.
  unfold seed_milvus, bind at 1, load_data_from_local. rewrite Hfile.
  fold (doc_name_of filename).
  unfold bind at 1, lift at 1. rewrite Hdocs.
  unfold bind at 1. rewrite fresh_uuids_run. fold ids.
  unfold bind, Milvus_init, add_documents, ret, OpenAIEmbeddings. simpl.
  rewrite decide_True by (subst ids; by rewrite length_fresh).
  destruct docs as [|D docs]; unfold set_collections, log_call, set_drawn; simpl;
    rewrite <- app_assoc; simpl; [done |].
  rewrite lookup_delete_eq. simpl. by rewrite insert_delete_eq.
Qed.

(** [seed_milvus] when the file cannot be opened or decoded, or the
    comprehension raises: the exception leaves the world as it was. *)
Lemma seed_milvus_raise uri c filename directory w :
  (fs w !! os_path_join directory filename = None ∨
   fs w !! os_path_join directory filename = Some None ∨
   ∃ data e, fs w !! os_path_join directory filename = Some (Some data) ∧
             make_documents data (doc_name_of filename) = Raise e) →
  ∃ e, seed_milvus uri c filename directory w = (Raise e, w).
Proof.
  unfold seed_milvus, bind at 1, load_data_from_local.
  intros [Hfile|[Hfile|(data & e & Hfile & Hdocs)]]; rewrite Hfile.
  - by exists OSError.
  - by exists ValueError.
  - fold (doc_name_of filename). unfold bind at 1, lift at 1. rewrite Hdocs. by exists e.
Qed.

(** [seed_milvus_live] when the crawler returns. *)
Lemma seed_milvus_live_run crawl_web URL uri c doc_name w docs h :
  crawl_web URL (heap w) = (Ok docs, h) →
  let h' := normalize_all doc_name docs h in
  let ids := uuid_at w <$> seq (drawn w) (length docs) in
  seed_milvus_live crawl_web URL uri c doc_name w =
    (Ok (mkMilvus "text-embedding-3-large" uri c),
     World (fs w) (entropy w) (drawn w + length docs) h'
       (match docs with
        | [] => collections w
        | _ => <[(uri, c) := stored w uri c ++ zip ids (h' <$> docs)]> (collections w)
        end)
       (calls w ++ [MilvusInit "text-embedding-3-large" uri c false;
                    AddDocuments uri c (h' <$> docs) ids])).
Proof.
  intros Hcrawl h' ids.
  unfold seed_milvus_live, bind at 1, run_crawler. rewrite Hcrawl.
  unfold bind at 1. rewrite for_each_update_run.
  unfold bind at 1. rewrite fresh_uuids_run.
  unfold bind, Milvus_init, add_documents, ret, OpenAIEmbeddings. simpl.
  fold h' ids.
  rewrite decide_True by (subst ids; by rewrite length_fmap, length_fresh).
  destruct docs as [|l docs]; unfold set_collections, log_call, set_drawn, set_heap; simpl;
    rewrite <- app_assoc; simpl; done.
Qed.

Lemma seed_milvus_live_raise crawl_web URL uri c doc_name w e h :
  crawl_web URL (heap w) = (Raise e, h) →
  seed_milvus_live crawl_web URL uri c doc_name w = (Raise e, set_heap h w).
Proof.
  intros Hcrawl. unfold seed_milvus_live, bind at 1, run_crawler. by rewrite Hcrawl.
Qed.
End runs.

Section runs_projected.
Implicit Types (w : world) (uri c : string) (key : string * string).

Lemma seed_milvus_ok uri c filename directory w data docs :
  fs w !! os_path_join directory filename = Some (Some data) →
  make_documents data (doc_name_of filename) = Ok docs →
  ∃ w', seed_milvus uri c filename directory w =
          (Ok (mkMilvus "text-embedding-3-large" uri c), w') ∧
        fs w' = fs w ∧ entropy w' = entropy w ∧ heap w' = heap w ∧
        drawn w' = (drawn w + length docs)%nat ∧
        stored w' uri c = zip (uuid_at w <$> seq (drawn w) (length docs)) docs ∧
        (∀ key, key ≠ (uri, c) → collections w' !! key = collections w !! key) ∧
        calls w' = calls w ++ [MilvusInit "text-embedding-3-large" uri c true;
                               AddDocuments uri c docs
                                 (uuid_at w <$> seq (drawn w) (length docs))].
Proof.
  intros Hfile Hdocs.
  pose proof (seed_milvus_run uri c filename directory w data docs Hfile Hdocs) as Hrun.
  cbv zeta in Hrun. eexists. split; [exact Hrun |].
  cbn [fs entropy heap drawn calls]. repeat (split; [done |]).
  unfold stored. cbn [collections]. split; [| split; [| done]].
  - destruct docs; [by rewrite lookup_delete_eq | by rewrite lookup_insert_eq].
  - intros key Hkey. destruct docs;
      [by rewrite lookup_delete_ne | by rewrite lookup_insert_ne].
Qed.

Lemma seed_milvus_live_ok crawl_web URL uri c doc_name w docs h :
  crawl_web URL (heap w) = (Ok docs, h) →
  ∃ w', seed_milvus_live crawl_web URL uri c doc_name w =
          (Ok (mkMilvus "text-embedding-3-large" uri c), w') ∧
        fs w' = fs w ∧ entropy w' = entropy w ∧
        heap w' = normalize_all doc_name docs h ∧
        drawn w' = (drawn w + length docs)%nat ∧
        stored w' uri c =
          stored w uri c ++ zip (uuid_at w <$> seq (drawn w) (length docs))
                                (normalize_all doc_name docs h <$> docs) ∧
        (∀ key, key ≠ (uri, c) → collections w' !! key = collections w !! key) ∧
        calls w' = calls w ++ [MilvusInit "text-embedding-3-large" uri c false;
                               AddDocuments uri c (normalize_all doc_name docs h <$> docs)
                                 (uuid_at w <$> seq (drawn w) (length docs))].
Proof.
  intros Hcrawl.
  pose proof (seed_milvus_live_run crawl_web URL uri c doc_name w docs h Hcrawl) as Hrun.
  cbv zeta in Hrun. eexists. split; [exact Hrun |].
  cbn [fs entropy heap drawn calls]. repeat (split; [done |]).
  unfold stored at 1. cbn [collections]. split; [| split; [| done]].
  - destruct docs; [simpl; by rewrite app_nil_r | by rewrite lookup_insert_eq].
  - intros key Hkey. destruct docs; [done | by rewrite lookup_insert_ne].
Qed.

Lemma stored_log_call call w uri c : stored (log_call call w) uri c = stored w uri c.
Proof. reflexivity. Qed.

Lemma make_documents_doc_name data doc_name docs :
  make_documents data doc_name = Ok docs →
  Forall (λ D, metadata D !! "doc_name" = Some (PyStr doc_name)) docs.
Proof.
  unfold make_documents. destruct (py_iter data) as [items|]; simpl; [| done].
  intros Hdocs%rmap_length.
  induction Hdocs as [|r D items docs Hr _ IH]; constructor; [| done].
  clear IH. unfold make_document in Hr.
  repeat match type of Hr with
         | rbind ?x _ = _ => destruct x; simpl in Hr; [| discriminate Hr]
         end.
  injection Hr as <-. simpl. unfold py_dict. simpl. by simplify_map_eq.
Qed.

Lemma uuid_at_entropy w w' i : entropy w' = entropy w → uuid_at w' i = uuid_at w i.
Proof. unfold uuid_at. by intros ->. Qed.

Lemma uuid_at_entropy_fmap w w' (l : list nat) :
  entropy w' = entropy w → uuid_at w' <$> l = uuid_at w <$> l.
Proof. intros H. apply list_fmap_ext. intros _ i _. by apply uuid_at_entropy. Qed.
End runs_projected.

(** ** Identifiers and the random source *)

Section fresh.
Implicit Types (w : world) (i j n m : nat).





End fresh.

(** ** Normalisation *)

Section normalisation.
Implicit Types (d m : gmap string pyval) (w : world) (l : loc).

Lemma populated_py_or m out k dflt :
  out !! k = Some (py_or (default PyNone (m !! k)) dflt) → populated m out k dflt.
Proof.
  unfold populated, py_or. destruct (m !! k) as [v|]; simpl; done.
Qed.

Lemma live_metadata_canonical m doc_name : canonical m doc_name (live_metadata m doc_name).
Proof.
  split; [apply live_metadata_dom |]. split; [| split].
  - unfold schema_defaults.
    repeat constructor; simpl; apply populated_py_or; by rewrite live_metadata_lookup.
  - by rewrite live_metadata_lookup.
  - intros k. rewrite live_metadata_lookup.
    repeat (case_decide; [intros [= H'];
                          first [discriminate H' | by eapply py_or_not_None in H'] |]).
    done.
Qed.

Lemma content_or_empty_py_or (o : option pyval) :
  py_or (default PyNone o) (PyStr "") = content_or_empty o.
Proof. by destruct o. Qed.

(** C1.  Whatever subset of the optional metadata fields a record
    carries, normalisation gives a document whose metadata has exactly
    the six fixed keys and [doc_name], each field holding the source
    value when that is present and true and its default otherwise, with
    no value [None]; the content is the source content, or the empty
    string when that is absent or false.  In [seed_milvus] this is the
    [Document(...)] expression, for a record whose content is absent,
    false or a string; in [seed_milvus_live] it is the loop over the
    crawled documents, which leaves their content as it is. *)
Theorem normalization_fills_schema :
  (∀ d m doc_name,
     d !! "metadata" = Some (PyDict m) →
     content_admissible (d !! "page_content") →
     ∃ D, make_document (PyDict d) doc_name = Ok D ∧
          canonical m doc_name (metadata D) ∧
          page_content D = content_or_empty (d !! "page_content") ∧
          ∃ s, page_content D = PyStr s) ∧
  (∀ doc_name docs w l,
     l ∈ docs →
     let w' := (for_each docs (update_metadata doc_name) w).2 in
     canonical (metadata (heap w l)) doc_name (metadata (heap w' l)) ∧
     page_content (heap w' l) = page_content (heap w l) ∧
     ∀ s, page_content (heap w l) = PyStr s →
          page_content (heap w' l) = content_or_empty (Some (PyStr s))).
Proof.
  split.
  - intros d m doc_name Hm Hc. eexists. split; [by apply make_document_shaped |].
    simpl. split; [apply live_metadata_canonical |].
    split; [apply content_or_empty_py_or |].
    unfold py_or. destruct (d !! "page_content") as [v|]; simpl in *; [| by eexists].
    destruct Hc as [Hv|[s ->]].
    + rewrite Hv. by eexists.
    + destruct (truthy (PyStr s)); by eexists.
  - intros doc_name docs w l Hl w'. subst w'.
    rewrite for_each_update_run. simpl.
    rewrite normalize_all_lookup, decide_True by done. simpl.
    split; [apply live_metadata_canonical |]. split; [done |].
    intros s ->. by destruct s.
Qed.
End normalisation.

(** ** The document name *)

Section doc_name.
Implicit Types (d m : gmap string pyval) (w : world) (l : loc).

Lemma make_documents_shaped records doc_name :
  Forall record_shaped records →
  ∃ docs, rmap (λ doc, make_document doc doc_name) records = Ok docs ∧
    Forall2 (λ r D, make_document r doc_name = Ok D ∧
                    metadata D !! "doc_name" = Some (PyStr doc_name)) records docs.
Proof.
  induction 1 as [|r records (d & m & -> & Hm) _ (docs & Hdocs & IH)]; simpl.
  - exists []. split; [done | constructor].
  - rewrite (make_document_shaped d m) by done. rewrite Hdocs. simpl.
    eexists. split; [done |]. constructor; [| done].
    split; [by apply make_document_shaped |]. simpl.
    by rewrite live_metadata_lookup.
Qed.

(** C5.  Every document of a batch carries the document name of the
    ingestion call, whatever its own metadata held under [doc_name], and
    the documents handed to the vector store are the normalised records
    in the order of the input: in [seed_milvus] the name computed from
    the file name, in [seed_milvus_live] the [doc_name] argument. *)
Theorem doc_name_injected_in_every_document :
  (∀ uri c filename directory w data records,
     fs w !! os_path_join directory filename = Some (Some data) →
     py_iter data = Ok records →
     Forall record_shaped records →
     ∃ vs w' docs ids,
       seed_milvus uri c filename directory w = (Ok vs, w') ∧
       calls w' = calls w ++ [MilvusInit "text-embedding-3-large" uri c true;
                              AddDocuments uri c docs ids] ∧
       Forall2 (λ r D, make_document r (doc_name_of filename) = Ok D ∧
                       metadata D !! "doc_name" = Some (PyStr (doc_name_of filename)))
               records docs) ∧
  (∀ crawl_web URL uri c doc_name w docs h,
     crawl_web URL (heap w) = (Ok docs, h) →
     ∃ vs w' committed ids,
       seed_milvus_live crawl_web URL uri c doc_name w = (Ok vs, w') ∧
       calls w' = calls w ++ [MilvusInit "text-embedding-3-large" uri c false;
                              AddDocuments uri c committed ids] ∧
       Forall2 (λ l D, D = heap w' l ∧
                       page_content D = page_content (h l) ∧
                       canonical (metadata (h l)) doc_name (metadata D) ∧
                       metadata D !! "doc_name" = Some (PyStr doc_name))
               docs committed).
Proof.
  split.
  - intros uri c filename directory w data records Hfile Hiter Hshape.
    destruct (make_documents_shaped records (doc_name_of filename) Hshape)
      as (docs & Hdocs & Hall).
    assert (make_documents data (doc_name_of filename) = Ok docs) as Hmk.
    { unfold make_documents. by rewrite Hiter. }
    pose proof (seed_milvus_run uri c filename directory w data docs Hfile Hmk) as Hrun.
    simpl in Hrun. eexists _, _, docs, _. split; [exact Hrun |]. by split.
  - intros crawl_web URL uri c doc_name w docs h Hcrawl.
    pose proof (seed_milvus_live_run crawl_web URL uri c doc_name w docs h Hcrawl) as Hrun.
    simpl in Hrun. eexists _, _, _, _. split; [exact Hrun |]. simpl.
    split; [reflexivity |].
    apply Forall2_fmap_r, Forall_Forall2_diag, Forall_forall. intros l Hl.
    apply list_elem_of_In in Hl. simpl.
    rewrite normalize_all_lookup, decide_True by done. simpl.
    split; [done |]. split; [done |].
    split; [apply live_metadata_canonical | by rewrite live_metadata_lookup].
Qed.

(** C6.  For a file that can be read, [load_data_from_local] returns the
    decoded data with a document name that is the file name without its
    last dot and what follows it, underscores replaced by spaces; a file
    name without a dot is kept whole.  That name is the one every
    document of the batch receives. *)
Theorem load_data_from_local_doc_name w filename directory data :
  fs w !! os_path_join directory filename = Some (Some data) →
  ∃ doc_name,
    load_data_from_local filename directory w = (Ok (data, doc_name), w) ∧
    (∀ stem ext,
       filename = stem +:+ "." +:+ ext → ¬ str_contains "." ext →
       underscores_to_spaces stem doc_name) ∧
    (¬ str_contains "." filename → underscores_to_spaces filename doc_name) ∧
    (∀ uri c docs,
       make_documents data doc_name = Ok docs →
       Forall (λ D, metadata D !! "doc_name" = Some (PyStr doc_name)) docs ∧
       ∃ vs w' ids,
         seed_milvus uri c filename directory w = (Ok vs, w') ∧
         calls w' = calls w ++ [MilvusInit "text-embedding-3-large" uri c true;
                                AddDocuments uri c docs ids]).
Proof.
  intros Hfile. exists (doc_name_of filename).
  split; [| split; [| split]].
  - unfold load_data_from_local. by rewrite Hfile.
  - intros stem ext -> Hext. unfold doc_name_of.
    change (stem +:+ "." +:+ ext) with (stem +:+ String "." ext).
    rewrite (rsplit1_last_sep "." stem ext) by done. apply str_replace_spec.
  - intros Hdot. unfold doc_name_of. rewrite rsplit1_no_sep by done.
    apply str_replace_spec.
  - intros uri c docs Hmk. split.
    2: { pose proof (seed_milvus_run uri c filename directory w data docs Hfile Hmk) as Hrun.
         simpl in Hrun. eexists _, _, _. split; [exact Hrun | reflexivity]. }
    revert Hmk. unfold make_documents.
    destruct (py_iter data) as [items|]; simpl; [| done].
    intros Hdocs%rmap_length.
    induction Hdocs as [|r D items docs Hr _ IH]; constructor; [| done].
    clear IH. unfold make_document in Hr.
    repeat match type of Hr with
           | rbind ?x _ = _ => destruct x; simpl in Hr; [| discriminate Hr]
           end.
    injection Hr as <-. simpl. unfold py_dict. simpl. by simplify_map_eq.
Qed.
End doc_name.

(** ** The collection after ingestion *)

Section collection.
Implicit Types (w : world) (uri c : string).




(** C4, as the code has it.  [connect_to_milvus] never raises: it
    constructs the store as [seed_milvus_live] does, without [drop_old],
    returns it, and leaves every collection of the index as it was. *)
Theorem connect_to_milvus_returns_without_writing uri c w :
  ∃ w', connect_to_milvus uri c w = (Ok (mkMilvus "text-embedding-3-large" uri c), w') ∧
        collections w' = collections w ∧
        calls w' = calls w ++ [MilvusInit "text-embedding-3-large" uri c false].
Proof. eexists. split; [reflexivity |]. by split. Qed.

(** C4 fails as stated: on an index without collections the call returns
    a store instead of raising. *)
Lemma connect_to_milvus_missing_collection_no_error :
  collections world0 !! ("http://localhost:19530", "never_created") = None ∧
  ¬ ∃ e w', connect_to_milvus "http://localhost:19530" "never_created" world0 = (Raise e, w').
Proof. split; [reflexivity |]. intros (e & w' & H). discriminate H. Qed.
End collection.

(** ** Effects and failures *)

Section effects.
Implicit Types (w : world) (uri c : string) (l : loc).

(** Every outcome of [seed_milvus]. *)
Lemma seed_milvus_cases uri c filename directory w :
  (∃ e, seed_milvus uri c filename directory w = (Raise e, w)) ∨
  (∃ data docs,
     fs w !! os_path_join directory filename = Some (Some data) ∧
     make_documents data (doc_name_of filename) = Ok docs).
Proof.
  destruct (fs w !! os_path_join directory filename) as [[data|]|] eqn:Hfile.
  - destruct (make_documents data (doc_name_of filename)) as [docs|e] eqn:Hdocs.
    + right. by exists data, docs.
    + left. apply seed_milvus_raise. right. right. by exists data, e.
  - left. apply seed_milvus_raise. by right; left.
  - left. apply seed_milvus_raise. by left.
Qed.

(** C8, as the code has it.  [seed_milvus] builds new documents and
    changes neither the files nor any existing [Document] object, in
    every outcome.  The loop of [seed_milvus_live] updates the crawled
    objects in place: a listed object keeps its content and gets the
    canonical mapping as its metadata; an object that is not listed is
    not touched. *)
Theorem normalization_effects :
  (∀ uri c filename directory w,
     let w' := (seed_milvus uri c filename directory w).2 in
     fs w' = fs w ∧ heap w' = heap w) ∧
  (∀ doc_name docs w l,
     let w' := (for_each docs (update_metadata doc_name) w).2 in
     fs w' = fs w ∧
     page_content (heap w' l) = page_content (heap w l) ∧
     (l ∈ docs → metadata (heap w' l) = live_metadata (metadata (heap w l)) doc_name) ∧
     (l ∉ docs → heap w' l = heap w l)).
Proof.
  split.
  - intros uri c filename directory w w'. subst w'.
    destruct (seed_milvus_cases uri c filename directory w)
      as [[e ->]|(data & docs & Hfile & Hdocs)]; [done |].
    by rewrite (seed_milvus_run uri c filename directory w data docs Hfile Hdocs).
  - intros doc_name docs w l w'. subst w'.
    rewrite for_each_update_run. cbn [snd set_heap fs heap].
    rewrite normalize_all_lookup.
    split; [done |]. destruct (decide (l ∈ docs)); by repeat split.
Qed.

(** C8 fails as stated for [seed_milvus_live]: a crawled document whose
    metadata mapping is empty has a different mapping after the loop. *)
Lemma update_metadata_changes_the_record :
  metadata (heap world0 0%nat) = ∅ ∧
  metadata (heap (for_each [0%nat] (update_metadata "stack-ai") world0).2 0%nat) ≠
    metadata (heap world0 0%nat).
Proof.
  split; [reflexivity |].
  intros H. apply (f_equal (λ m, m !! "language")) in H. vm_compute in H. discriminate H.
Qed.

Lemma rmap_Raise_first {A B} (f : A → result B) (l : list A) :
  Exists (λ x, ∃ e, f x = Raise e) l →
  ∃ x e, x ∈ l ∧ f x = Raise e ∧ rmap f l = Raise e.
Proof.
  induction 1 as [x l [e He]|x l _ (y & e & Hy & He & IH)]; simpl.
  - exists x, e. rewrite He. split; [by left | done].
  - destruct (f x) as [b|e'] eqn:Hx; simpl.
    + exists y, e. rewrite IH. split; [by right | done].
    + exists x, e'. split; [by left | done].
Qed.

(** C9, as the code has it.  When the file cannot be opened, cannot be
    decoded, decodes to a value that cannot be iterated, or yields an
    item that is not a mapping with a metadata mapping, [seed_milvus]
    raises before it reaches the vector store: the world is the one it
    started from, so no call was made to the client and no collection
    was created, deleted or written. *)
Theorem seed_milvus_fails_before_index uri c filename directory w :
  (fs w !! os_path_join directory filename = None ∨
   fs w !! os_path_join directory filename = Some None ∨
   ∃ data, fs w !! os_path_join directory filename = Some (Some data) ∧
           ((∃ e, py_iter data = Raise e) ∨
            ∃ items, py_iter data = Ok items ∧ Exists (λ r, ¬ record_shaped r) items)) →
  ∃ e w', seed_milvus uri c filename directory w = (Raise e, w') ∧
          w' = w ∧ calls w' = calls w ∧ collections w' = collections w.
Proof.
  unfold seed_milvus, bind at 1, load_data_from_local.
  intros [Hfile|[Hfile|(data & Hfile & Hdata)]]; rewrite Hfile.
  - by exists OSError, w.
  - by exists ValueError, w.
  - fold (doc_name_of filename). unfold bind at 1, lift at 1, make_documents.
    destruct Hdata as [[e He]|(items & Hiter & Hbad)].
    + rewrite He. simpl. by exists e, w.
    + rewrite Hiter. simpl.
      destruct (rmap_Raise_first (λ doc, make_document doc (doc_name_of filename)) items)
        as (x & e & _ & Hx & ->).
      { apply Exists_exists in Hbad as (r & Hin & Hr). apply Exists_exists.
        exists r. split; [done | by apply make_document_unshaped]. }
      by exists e, w.
Qed.

(** C9 fails as stated: a file holding an empty object is not a list of
    records, and [seed_milvus] accepts it as an empty batch and deletes
    the collection. *)
Lemma seed_milvus_accepts_empty_object :
  let w := World {["data_v3/stack.json" := Some (PyDict ∅)]} (λ _, 0) 0
                 (λ _, mkDocument (PyStr "") ∅)
                 {[("http://localhost:19530", "data_test") :=
                     [("id", mkDocument (PyStr "kept") ∅)]]} [] in
  ¬ source_shaped (PyDict ∅) ∧
  ∃ vs w', seed_milvus "http://localhost:19530" "data_test" "stack.json" "data_v3" w
             = (Ok vs, w') ∧
           collections w !! ("http://localhost:19530", "data_test") ≠ None ∧
           collections w' !! ("http://localhost:19530", "data_test") = None ∧
           calls w' ≠ calls w.
Proof.
  split; [by intros (records & H & _) |].
  eexists _, _. split; [vm_compute; reflexivity |].
  split; [by vm_compute |]. split; [by vm_compute | by vm_compute].
Qed.
End effects.

(** ** Identifiers *)

Section identifiers.
Implicit Types (w : world) (uri c : string) (i j : nat).

(** C10.  Whatever the inputs, every call that [seed_milvus] and
    [seed_milvus_live] make to the client passes as many identifiers as
    documents.  A run either raises before it has called the client, or
    returns after the constructor call and one [add_documents] call
    whose two lists have the same length, the empty batch included. *)
Theorem commit_lengths_agree :
  (∀ uri c filename directory w,
     ∃ r w' new,
       seed_milvus uri c filename directory w = (r, w') ∧
       calls w' = calls w ++ new ∧
       Forall balanced new ∧
       ((new = [] ∧ ∃ e, r = Raise e) ∨
        ∃ docs ids,
          r = Ok (mkMilvus "text-embedding-3-large" uri c) ∧
          new = [MilvusInit "text-embedding-3-large" uri c true;
                 AddDocuments uri c docs ids] ∧
          length docs = length ids)) ∧
  (∀ crawl_web URL uri c doc_name w,
     ∃ r w' new,
       seed_milvus_live crawl_web URL uri c doc_name w = (r, w') ∧
       calls w' = calls w ++ new ∧
       Forall balanced new ∧
       ((new = [] ∧ ∃ e, r = Raise e) ∨
        ∃ docs ids,
          r = Ok (mkMilvus "text-embedding-3-large" uri c) ∧
          new = [MilvusInit "text-embedding-3-large" uri c false;
                 AddDocuments uri c docs ids] ∧
          length docs = length ids)).
Proof.
  split.
  - intros uri c filename directory w.
    destruct (seed_milvus_cases uri c filename directory w)
      as [[e He]|(data & docs & Hfile & Hdocs)].
    + exists (Raise e), w, []. split; [done |]. split; [by rewrite app_nil_r |].
      split; [constructor |]. left. split; [done | by exists e].
    + rewrite (seed_milvus_run uri c filename directory w data docs Hfile Hdocs).
      eexists _, _, _. split; [reflexivity |]. cbn [calls].
      split; [reflexivity |].
      split; [repeat constructor; simpl; by rewrite length_fresh |].
      right. eexists _, _. split; [reflexivity |]. split; [reflexivity |].
      by rewrite length_fresh.
  - intros crawl_web URL uri c doc_name w.
    destruct (crawl_web URL (heap w)) as [[docs|e] h] eqn:Hcrawl.
    + rewrite (seed_milvus_live_run crawl_web URL uri c doc_name w docs h Hcrawl).
      eexists _, _, _. split; [reflexivity |]. cbn [calls].
      split; [reflexivity |].
      split; [repeat constructor; simpl; by rewrite length_fresh, length_fmap |].
      right. eexists _, _. split; [reflexivity |]. split; [reflexivity |].
      by rewrite length_fresh, length_fmap.
    + rewrite (seed_milvus_live_raise crawl_web URL uri c doc_name w e h Hcrawl).
      exists (Raise e), (set_heap h w), []. split; [done |].
      split; [by rewrite app_nil_r |].
      split; [constructor |]. left. split; [done | by exists e].
Qed.


End identifiers.

(** ** The theorems at concrete inputs *)

Section examples.

Lemma normalization_fills_schema_witness :
  example_record !! "metadata" = Some (PyDict example_metadata) ∧
  content_admissible (example_record !! "page_content") ∧
  (∃ D, make_document (PyDict example_record) "stack guide" = Ok D ∧
        page_content D = PyStr "hello" ∧
        metadata D !! "title" = Some (PyStr "Intro") ∧
        metadata D !! "language" = Some (PyStr "en") ∧
        metadata D !! "start_index" = Some (PyInt 0) ∧
        metadata D !! "doc_name" = Some (PyStr "stack guide")) ∧
  (0%nat ∈ [0; 1; 0]%nat ∧
   let w' := (for_each [0; 1; 0]%nat (update_metadata "stack-ai") example_world).2 in
   canonical (metadata (heap example_world 0%nat)) "stack-ai" (metadata (heap w' 0%nat)) ∧
   page_content (heap w' 0%nat) = page_content (heap example_world 0%nat) ∧
   ∀ s, page_content (heap example_world 0%nat) = PyStr s →
        page_content (heap w' 0%nat) = content_or_empty (Some (PyStr s))).
Proof.
  assert (content_admissible (example_record !! "page_content")) as Hc.
  { right. by exists "hello". }
  split; [reflexivity |]. split; [exact Hc |]. split.
  - destruct (proj1 normalization_fills_schema example_record example_metadata "stack guide"
                eq_refl Hc) as (D & HD & (_ & Hfields & Hname & _) & Hcontent & _).
    exists D. split; [exact HD |]. split; [exact Hcontent |].
    unfold schema_defaults in Hfields.
    repeat match goal with
           | H : Forall _ (_ :: _) |- _ => inversion H; subst; clear H
           end.
    repeat split; assumption.
  - split; [constructor |].
    apply (proj2 normalization_fills_schema "stack-ai" [0; 1; 0]%nat example_world 0%nat).
    constructor.
Defined.

Lemma doc_name_injected_in_every_document_witness :
  (∃ vs w' docs ids,
     seed_milvus "http://localhost:19530" "data_test" "stack_guide.json" "data_v3"
       example_world = (Ok vs, w') ∧
     calls w' = calls example_world ++
                [MilvusInit "text-embedding-3-large" "http://localhost:19530" "data_test" true;
                 AddDocuments "http://localhost:19530" "data_test" docs ids] ∧
     Forall2 (λ r D, make_document r (doc_name_of "stack_guide.json") = Ok D ∧
                     metadata D !! "doc_name" = Some (PyStr (doc_name_of "stack_guide.json")))
             [PyDict example_record; PyDict example_bare_record] docs) ∧
  (∃ vs w' committed ids,
     seed_milvus_live example_crawler "https://www.stack-ai.com/docs"
       "http://localhost:19530" "data_test_live_v2" "stack-ai" example_world = (Ok vs, w') ∧
     calls w' = calls example_world ++
                [MilvusInit "text-embedding-3-large" "http://localhost:19530"
                   "data_test_live_v2" false;
                 AddDocuments "http://localhost:19530" "data_test_live_v2" committed ids] ∧
     Forall2 (λ l D, D = heap w' l ∧
                     page_content D = page_content (heap example_world l) ∧
                     canonical (metadata (heap example_world l)) "stack-ai" (metadata D) ∧
                     metadata D !! "doc_name" = Some (PyStr "stack-ai"))
             [0; 1; 0]%nat committed).
Proof.
  split.
  - apply (proj1 doc_name_injected_in_every_document "http://localhost:19530" "data_test"
             "stack_guide.json" "data_v3" example_world
             (PyList [PyDict example_record; PyDict example_bare_record])).
    + reflexivity.
    + reflexivity.
    + repeat constructor.
      * exists example_record, example_metadata. split; reflexivity.
      * exists example_bare_record, ∅. split; reflexivity.
  - apply (proj2 doc_name_injected_in_every_document example_crawler).
    reflexivity.
Defined.

Lemma load_data_from_local_doc_name_witness :
  fs example_world !! os_path_join "data_v3" "stack_guide.json" =
    Some (Some (PyList [PyDict example_record; PyDict example_bare_record])) ∧
  ∃ doc_name,
    load_data_from_local "stack_guide.json" "data_v3" example_world =
      (Ok (PyList [PyDict example_record; PyDict example_bare_record], doc_name),
       example_world) ∧
    underscores_to_spaces "stack_guide" doc_name.
Proof.
  split; [reflexivity |].
  destruct (load_data_from_local_doc_name example_world "stack_guide.json" "data_v3"
              (PyList [PyDict example_record; PyDict example_bare_record]))
    as (doc_name & Hload & Hstem & _); [reflexivity |].
  exists doc_name. split; [exact Hload |].
  apply (Hstem "stack_guide" "json"); [reflexivity |].
  unfold str_contains. apply (bool_decide_unpack _). vm_compute. exact I.
Defined.




Lemma normalization_effects_witness :
  0%nat ∈ [0; 1; 0]%nat ∧ (5%nat ∉ [0; 1; 0]%nat) ∧
  (let w' := (for_each [0; 1; 0]%nat (update_metadata "stack-ai") example_world).2 in
   metadata (heap w' 0%nat) = live_metadata (metadata (heap example_world 0%nat)) "stack-ai" ∧
   heap w' 5%nat = heap example_world 5%nat).
Proof.
  assert (5%nat ∉ [0; 1; 0]%nat) as Hout.
  { apply (bool_decide_unpack _). vm_compute. exact I. }
  split; [constructor |]. split; [exact Hout |].
  destruct (proj2 normalization_effects "stack-ai" [0; 1; 0]%nat example_world 0%nat)
    as (_ & _ & Hin & _).
  destruct (proj2 normalization_effects "stack-ai" [0; 1; 0]%nat example_world 5%nat)
    as (_ & _ & _ & Hother).
  split; [apply Hin; constructor | exact (Hother Hout)].
Defined.

Lemma seed_milvus_fails_before_index_witness :
  fs example_world !! os_path_join "data_v3" "missing.json" = None ∧
  ∃ e w', seed_milvus "http://localhost:19530" "data_test" "missing.json" "data_v3"
            example_world = (Raise e, w') ∧
          w' = example_world ∧ calls w' = calls example_world ∧
          collections w' = collections example_world.
Proof.
  split; [reflexivity |].
  apply (seed_milvus_fails_before_index "http://localhost:19530" "data_test" "missing.json"
           "data_v3" example_world).
  left. reflexivity.
Defined.

Example doc_name_of_stack : doc_name_of "stack.json" = "stack".
Proof. reflexivity. Qed.

Example doc_name_of_two_dots : doc_name_of "user_guide.v2.json" = "user guide.v2".
Proof. reflexivity. Qed.

Example doc_name_of_no_dot : doc_name_of "read_me" = "read me".
Proof. reflexivity. Qed.

Example os_path_join_relative : os_path_join "data_v3" "stack.json" = "data_v3/stack.json".
Proof. reflexivity. Qed.

Example os_path_join_absolute : os_path_join "data_v3" "/tmp/stack.json" = "/tmp/stack.json".
Proof. reflexivity. Qed.

Example uuid_str_of_zero_bytes :
  uuid_str (uuid4_int 0) = "00000000-0000-4000-8000-000000000000".
Proof. reflexivity. Qed.

Example uuid_str_of_one_bytes :
  uuid_str (uuid4_int (2 ^ 128 - 1)) = "ffffffff-ffff-4fff-bfff-ffffffffffff".
Proof. vm_compute. reflexivity. Qed.

(** A record without a [metadata] key ends the comprehension with
    [KeyError]. *)
Example make_document_without_metadata :
  make_document (PyDict {["page_content" := PyStr "text"]}) "stack guide"
  = Raise (KeyError "metadata").
Proof. reflexivity. Qed.
End examples.

(** * Further properties *)

(** ** The metadata loop *)

Section loop_more.
Implicit Types (m : gmap string pyval) (w : world) (l : loc).

Lemma live_metadata_rename m a b :
  live_metadata (live_metadata m a) b = live_metadata m b.
Proof.
  apply map_eq. intros k.
  rewrite (live_metadata_lookup (live_metadata m a)).
  rewrite !live_metadata_lookup. simpl.
  repeat case_decide; simpl; rewrite ?py_or_idemp; done.
Qed.

Lemma loop_heap doc_name docs w l :
  heap (for_each docs (update_metadata doc_name) w).2 l =
    if decide (l ∈ docs) then normalized doc_name (heap w l) else heap w l.
Proof. rewrite for_each_update_run. simpl. apply normalize_all_lookup. Qed.

(** X1.  What the loop of [seed_milvus_live] leaves in the store
    depends on which objects are listed, not on their order or on how
    often one is listed; and running the loop again, under the same or
    another document name, gives what a single run under the last name
    gives. *)
Theorem metadata_loop_depends_on_listed_objects :
  (∀ doc_name docs1 docs2 w l,
     (∀ x, x ∈ docs1 ↔ x ∈ docs2) →
     heap (for_each docs1 (update_metadata doc_name) w).2 l =
     heap (for_each docs2 (update_metadata doc_name) w).2 l) ∧
  (∀ a b docs w l,
     heap (for_each docs (update_metadata b) (for_each docs (update_metadata a) w).2).2 l =
     heap (for_each docs (update_metadata b) w).2 l).
Proof.
  split.
  - intros doc_name docs1 docs2 w l Hsame. rewrite !loop_heap.
    destruct (decide (l ∈ docs1)) as [H1|H1].
    + by rewrite decide_True by (by apply Hsame).
    + by rewrite decide_False by (by rewrite <- Hsame).
  - intros a b docs w l. rewrite !loop_heap.
    destruct (decide (l ∈ docs)); [| done].
    unfold normalized. simpl. by rewrite live_metadata_rename.
Qed.

(** X2.  The two entry points normalise alike: the metadata that the
    [Document(...)] expression of [seed_milvus] builds from a record is
    the metadata that the loop of [seed_milvus_live] assigns to a
    crawled document with the same source metadata. *)
Theorem both_paths_normalise_alike d m doc_name w l :
  d !! "metadata" = Some (PyDict m) →
  metadata (heap w l) = m →
  ∃ D, make_document (PyDict d) doc_name = Ok D ∧
       metadata D = metadata (heap (update_metadata doc_name l w).2 l).
Proof.
  intros Hd Hm. eexists. split; [by apply make_document_shaped |].
  simpl. rewrite fn_lookup_insert. simpl. by rewrite Hm.
Qed.
End loop_more.

(** ** Exceptions of [seed_milvus] *)

Section exceptions_more.
Implicit Types (w : world) (uri c : string).

Lemma rmap_first_raise {A B} (f : A → result B) (good rest : list A) (bad : A) e :
  Forall (λ x, ∃ y, f x = Ok y) good → f bad = Raise e →
  rmap f (good ++ bad :: rest) = Raise e.
Proof.
  intros Hgood Hbad. induction Hgood as [|x good [y Hx] _ IH]; simpl.
  - by rewrite Hbad.
  - by rewrite Hx, IH.
Qed.

Lemma seed_milvus_raise_with uri c filename directory w data e :
  fs w !! os_path_join directory filename = Some (Some data) →
  make_documents data (doc_name_of filename) = Raise e →
  seed_milvus uri c filename directory w = (Raise e, w).
Proof.
  intros Hfile Hdocs. unfold seed_milvus, bind at 1, load_data_from_local. rewrite Hfile.
  fold (doc_name_of filename). unfold bind at 1, lift at 1. by rewrite Hdocs.
Qed.

(** X3.  A record without a [metadata] key ends [seed_milvus] with
    [KeyError('metadata')], also when it has content and when the
    records before it are well formed: the records after it are not
    looked at, and nothing has been done to the index. *)
Theorem seed_milvus_missing_metadata_key uri c filename directory w good d rest :
  fs w !! os_path_join directory filename = Some (Some (PyList (good ++ PyDict d :: rest))) →
  Forall record_shaped good →
  d !! "metadata" = None →
  seed_milvus uri c filename directory w = (Raise (KeyError "metadata"), w).
Proof.
  intros Hfile Hgood Hd. apply (seed_milvus_raise_with _ _ _ _ _ _ _ Hfile).
  unfold make_documents. simpl. apply rmap_first_raise.
  - clear Hfile. induction Hgood as [|r good (d' & m & -> & Hm) _ IH]; constructor; [| done].
    eexists. by apply make_document_shaped.
  - unfold make_document, metadata_or. simpl. by rewrite Hd.
Qed.

(** X4.  A file whose top-level value is not a list: a non-empty object
    (a single record, say) or a non-empty string ends [seed_milvus] with
    [AttributeError], since iterating gives keys or characters; [null],
    a boolean or a number ends it with [TypeError].  In each case the
    index is untouched. *)
Theorem seed_milvus_top_level_not_a_list uri c filename directory w data :
  fs w !! os_path_join directory filename = Some (Some data) →
  match data with
  | PyList _ => True
  | PyDict d =>
      d ≠ ∅ → seed_milvus uri c filename directory w = (Raise AttributeError, w)
  | PyStr s =>
      s ≠ "" → seed_milvus uri c filename directory w = (Raise AttributeError, w)
  | PyNone | PyBool _ | PyInt _ | PyFloat _ =>
      seed_milvus uri c filename directory w = (Raise TypeError, w)
  end.
Proof.
  intros Hfile.
  destruct data as [| | | |s| |d]; try done;
    try (by apply (seed_milvus_raise_with _ _ _ _ _ _ _ Hfile)).
  - intros Hs. apply (seed_milvus_raise_with _ _ _ _ _ _ _ Hfile).
    destruct s as [|a s]; [done |]. reflexivity.
  - intros Hd. apply (seed_milvus_raise_with _ _ _ _ _ _ _ Hfile).
    unfold make_documents. simpl.
    destruct (map_to_list d) as [|[k v] kvs] eqn:Hl.
    + by apply map_to_list_empty_iff in Hl.
    + reflexivity.
Qed.
End exceptions_more.

(** ** What an ingestion does to the index *)

Section index_more.
Implicit Types (w : world) (uri c : string) (key : string * string).

(** X7.  When the crawler raises, [seed_milvus_live] ends with the
    crawler's exception: no identifier has been drawn, no call has been
    made to the client and no collection has changed; the documents are
    as the crawler left them, not normalised. *)
Theorem seed_milvus_live_crawl_failure crawl_web URL uri c doc_name w e h :
  crawl_web URL (heap w) = (Raise e, h) →
  ∃ w', seed_milvus_live crawl_web URL uri c doc_name w = (Raise e, w') ∧
        heap w' = h ∧ drawn w' = drawn w ∧
        collections w' = collections w ∧ calls w' = calls w.
Proof.
  intros Hcrawl. eexists. split; [by apply seed_milvus_live_raise |]. done.
Qed.

(** X8.  The two ingestion paths on one collection: a [seed_milvus]
    call after a [seed_milvus_live] call leaves only the documents of
    the file; what the crawl had stored is gone. *)
Theorem seeding_after_crawling_and_back
    crawl_web URL doc_name uri c filename directory w data docs crawled h :
  fs w !! os_path_join directory filename = Some (Some data) →
  make_documents data (doc_name_of filename) = Ok docs →
  crawl_web URL (heap w) = (Ok crawled, h) →
  ∃ vs1 w1 vs2 w2,
    seed_milvus_live crawl_web URL uri c doc_name w = (Ok vs1, w1) ∧
    seed_milvus uri c filename directory w1 = (Ok vs2, w2) ∧
    (stored w2 uri c).*2 = docs ∧
    (stored w2 uri c).*1 = uuid_at w <$> seq (drawn w + length crawled) (length docs).
Proof.
  intros Hfile Hdocs Hcrawl.
  destruct (seed_milvus_live_ok crawl_web URL uri c doc_name w crawled h Hcrawl)
    as (w1 & Hrun1 & Hfs & Hent & _ & Hdrawn & _).
  rewrite <- Hfs in Hfile.
  destruct (seed_milvus_ok uri c filename directory w1 data docs Hfile Hdocs)
    as (w2 & Hrun2 & _ & _ & _ & _ & Hst & _).
  eexists _, w1, _, w2. split; [done |]. split; [done |].
  rewrite Hst, Hdrawn, (uuid_at_entropy_fmap w w1) by done.
  split; [apply snd_zip | apply fst_zip]; by rewrite length_fmap, length_seq.
Qed.

(** X9.  Running [seed_milvus] again on the same file does not add
    anything: after the second run the collection holds the same
    documents, in the same order, as after the first (under the
    identifiers of the later draws). *)
Theorem seed_milvus_rerun_same_documents uri c filename directory w data docs :
  fs w !! os_path_join directory filename = Some (Some data) →
  make_documents data (doc_name_of filename) = Ok docs →
  ∃ vs1 w1 vs2 w2,
    seed_milvus uri c filename directory w = (Ok vs1, w1) ∧
    seed_milvus uri c filename directory w1 = (Ok vs2, w2) ∧
    (stored w1 uri c).*2 = docs ∧
    (stored w2 uri c).*2 = docs ∧
    (stored w2 uri c).*1 =
      uuid_at w <$> seq (drawn w + length docs) (length docs).
Proof.
  intros Hfile Hdocs.
  destruct (seed_milvus_ok uri c filename directory w data docs Hfile Hdocs)
    as (w1 & Hrun1 & Hfs & Hent & _ & Hdrawn & Hst1 & _).
  pose proof Hfile as Hfile1. rewrite <- Hfs in Hfile1.
  destruct (seed_milvus_ok uri c filename directory w1 data docs Hfile1 Hdocs)
    as (w2 & Hrun2 & _ & _ & _ & _ & Hst2 & _).
  eexists _, w1, _, w2. split; [done |]. split; [done |].
  rewrite Hst1, Hst2, Hdrawn, (uuid_at_entropy_fmap w w1) by done.
  split; [| split]; [apply snd_zip | apply snd_zip | apply fst_zip];
    by rewrite length_fmap, length_seq.
Qed.

(** X11.  [connect_to_milvus] after an ingestion: for the same endpoint
    and collection it returns a store equal to the one [seed_milvus] or
    [seed_milvus_live] returned, so with the same embedding model, and
    the collection holds what the ingestion left in it. *)
Theorem connect_to_milvus_after_seeding :
  (∀ uri c filename directory w data docs,
     fs w !! os_path_join directory filename = Some (Some data) →
     make_documents data (doc_name_of filename) = Ok docs →
     ∃ vs w1 w2,
       seed_milvus uri c filename directory w = (Ok vs, w1) ∧
       connect_to_milvus uri c w1 = (Ok vs, w2) ∧
       embedding_function vs = "text-embedding-3-large" ∧
       (stored w2 uri c).*2 = docs) ∧
  (∀ crawl_web URL uri c doc_name w docs h,
     crawl_web URL (heap w) = (Ok docs, h) →
     ∃ vs w1 w2,
       seed_milvus_live crawl_web URL uri c doc_name w = (Ok vs, w1) ∧
       connect_to_milvus uri c w1 = (Ok vs, w2) ∧
       embedding_function vs = "text-embedding-3-large" ∧
       stored w2 uri c = stored w1 uri c).
Proof.
  split.
  - intros uri c filename directory w data docs Hfile Hdocs.
    destruct (seed_milvus_ok uri c filename directory w data docs Hfile Hdocs)
      as (w1 & Hrun1 & _ & _ & _ & _ & Hst1 & _).
    exists (mkMilvus "text-embedding-3-large" uri c), w1,
      (log_call (MilvusInit "text-embedding-3-large" uri c false) w1).
    split; [done |]. split; [reflexivity |]. split; [done |].
    rewrite stored_log_call, Hst1. apply snd_zip. by rewrite length_fmap, length_seq.
  - intros crawl_web URL uri c doc_name w docs h Hcrawl.
    destruct (seed_milvus_live_ok crawl_web URL uri c doc_name w docs h Hcrawl)
      as (w1 & Hrun1 & _).
    exists (mkMilvus "text-embedding-3-large" uri c), w1,
      (log_call (MilvusInit "text-embedding-3-large" uri c false) w1).
    split; [done |]. split; [reflexivity |]. split; [done |]. apply stored_log_call.
Qed.

(** X12.  [main()] reads [data_v3/stack.json] and nothing else.  When
    that file holds records, [main] returns [None], the collection
    [data_test] of [http://localhost:19530] holds exactly their
    documents, each named [stack], and no other collection has changed;
    when the file cannot be opened, [main] ends with [OSError] and has
    done nothing. *)
Theorem main_seeds_data_test w :
  (∀ data docs,
     fs w !! "data_v3/stack.json" = Some (Some data) →
     make_documents data "stack" = Ok docs →
     ∃ w', main w = (Ok (), w') ∧
           (stored w' "http://localhost:19530" "data_test").*2 = docs ∧
           Forall (λ D, metadata D !! "doc_name" = Some (PyStr "stack")) docs ∧
           ∀ key, key ≠ ("http://localhost:19530", "data_test") →
                  collections w' !! key = collections w !! key) ∧
  (fs w !! "data_v3/stack.json" = None → main w = (Raise OSError, w)).
Proof.
  split.
  - intros data docs Hfile Hdocs.
    destruct (seed_milvus_ok "http://localhost:19530" "data_test" "stack.json" "data_v3"
                w data docs Hfile Hdocs)
      as (w' & Hrun & _ & _ & _ & _ & Hst & Hframe & _).
    exists w'. unfold main, bind. rewrite Hrun. split; [done |].
    split; [rewrite Hst; apply snd_zip; by rewrite length_fmap, length_seq |].
    split; [| done].
    by apply (make_documents_doc_name data).
  - intros Hfile. unfold main, bind at 1, seed_milvus, bind at 1, load_data_from_local.
    change (os_path_join "data_v3" "stack.json") with "data_v3/stack.json".
    by rewrite Hfile.
Qed.
End index_more.

(** ** File names and paths *)

Section names_more.
Implicit Types (s t f d : string) (l k : list ascii) (c : ascii).

Lemma rfind_None c l : rfind c l = None ↔ c ∉ l.
Proof.
  split; [| apply rfind_absent].
  induction l as [|x l IH]; simpl; [intros _; by apply not_elem_of_nil |].
  destruct (rfind c l) as [i|]; [done |].
  destruct (decide (x = c)) as [->|Hne]; [done |].
  intros _ [?|?]%elem_of_cons; [done | by apply IH].
Qed.

Lemma rfind_Some_0 c l : rfind c l = Some 0%nat ↔ ∃ k, l = c :: k ∧ c ∉ k.
Proof.
  destruct l as [|x l]; simpl.
  - split; [done | by intros (k & ? & _)].
  - destruct (rfind c l) as [i|] eqn:Hr.
    + split; [done |]. intros (k & [= -> ->] & Hk).
      apply rfind_None in Hk. congruence.
    + apply rfind_None in Hr. destruct (decide (x = c)) as [->|Hne].
      * split; [by exists l | done].
      * split; [done |]. by intros (k & [= -> ->] & _).
Qed.

Lemma rfind_lt c l i : rfind c l = Some i → (i < length l)%nat.
Proof.
  revert i. induction l as [|x l IH]; intros i; simpl; [done |].
  destruct (rfind c l) as [j|].
  - intros [= <-]. specialize (IH j eq_refl). lia.
  - destruct (decide (x = c)); [intros [= <-]; lia | done].
Qed.

Lemma str_replace_length a b s : String.length (str_replace a b s) = String.length s.
Proof.
  unfold str_replace.
  by rewrite length_string_of_list_ascii, length_fmap, length_list_ascii_of_string.
Qed.

Lemma string_length_0 s : String.length s = 0%nat ↔ s = "".
Proof. destruct s; simpl; split; done. Qed.

Lemma string_of_list_ascii_inj l k :
  string_of_list_ascii l = string_of_list_ascii k → l = k.
Proof.
  intros H. apply (f_equal list_ascii_of_string) in H.
  by rewrite !list_ascii_of_string_of_list_ascii in H.
Qed.

(** X13.  The document name computed from a file name never contains
    an underscore and is never longer than the file name; when the file
    name contains a dot it is strictly shorter. *)
Theorem doc_name_of_no_underscore f :
  ¬ str_contains "_" (doc_name_of f) ∧
  (String.length (doc_name_of f) ≤ String.length f)%nat ∧
  (str_contains "." f → (String.length (doc_name_of f) < String.length f)%nat).
Proof.
  split; [| split].
  - unfold str_contains, doc_name_of, str_replace.
    rewrite list_ascii_of_string_of_list_ascii.
    intros (c & Hc & _)%list_elem_of_fmap.
    destruct (decide (c = "_"%char)); [discriminate Hc | congruence].
  - unfold doc_name_of. rewrite str_replace_length. unfold rsplit1.
    destruct (rfind "." (list_ascii_of_string f)) as [i|]; simpl; [| done].
    rewrite length_string_of_list_ascii, length_take, length_list_ascii_of_string. lia.
  - unfold str_contains, doc_name_of. rewrite str_replace_length. unfold rsplit1.
    destruct (rfind "." (list_ascii_of_string f)) as [i|] eqn:Hr; simpl.
    + intros _. apply rfind_lt in Hr.
      rewrite length_string_of_list_ascii, length_take.
      rewrite length_list_ascii_of_string in *. lia.
    + intros Hin. by apply rfind_None in Hr.
Qed.

(** X14.  The document name is empty exactly when the file name is
    empty or is a dot followed by a dot-free rest, as in [.json]. *)
Theorem doc_name_of_empty_iff f :
  doc_name_of f = "" ↔ f = "" ∨ ∃ ext, f = String "." ext ∧ ¬ str_contains "." ext.
Proof.
  rewrite <- string_length_0. unfold doc_name_of. rewrite str_replace_length.
  rewrite string_length_0. unfold rsplit1, str_contains.
  destruct (rfind "." (list_ascii_of_string f)) as [i|] eqn:Hr; simpl.
  - split.
    + intros Hempty. right.
      apply (f_equal String.length) in Hempty.
      rewrite length_string_of_list_ascii, length_take in Hempty. simpl in Hempty.
      pose proof (rfind_lt _ _ _ Hr) as Hlt.
      assert (i = 0%nat) as -> by lia.
      apply rfind_Some_0 in Hr as (k & Hf & Hk).
      exists (string_of_list_ascii k). rewrite list_ascii_of_string_of_list_ascii.
      split; [| done].
      rewrite <- (string_of_list_ascii_of_string f), Hf. done.
    + intros [->|(ext & -> & Hext)]; [done |].
      simpl in Hr. apply rfind_None in Hext. rewrite Hext in Hr.
      injection Hr as <-. done.
  - split; [by left |]. intros [->|(ext & -> & Hext)]; [done |].
    apply rfind_None in Hr. exfalso. apply Hr. simpl. by left.
Qed.

Lemma string_app_assoc s t (u : string) : (s +:+ t) +:+ u = s +:+ (t +:+ u).
Proof.
  induction s as [|a s IH]; [done |].
  change (String a ((s +:+ t) +:+ u) = String a (s +:+ (t +:+ u))). by rewrite IH.
Qed.

Lemma last_list_ascii_app_slash d :
  list.last (list_ascii_of_string (d +:+ "/")) = Some "/"%char.
Proof. rewrite list_ascii_of_string_app. simpl. apply last_snoc. Qed.

Lemma os_path_join_trailing_slash d f :
  d ≠ "" → list.last (list_ascii_of_string d) ≠ Some "/"%char →
  os_path_join (d +:+ "/") f = os_path_join d f.
Proof.
  intros Hd Hlast. unfold os_path_join.
  destruct (String.prefix "/" f); [done |].
  rewrite (bool_decide_eq_false_2 (d = "")) by done.
  rewrite (bool_decide_eq_false_2 (list.last (list_ascii_of_string d) = Some "/"%char))
    by done.
  rewrite (bool_decide_eq_false_2 (d +:+ "/" = "")) by (by destruct d).
  rewrite bool_decide_eq_true_2 by apply last_list_ascii_app_slash.
  apply string_app_assoc.
Qed.

(** X15.  Which file [load_data_from_local] reads.  An absolute file
    name is read as it is, whatever the directory; with an empty
    directory the path is the file name; and a directory written with or
    without a final slash names the same file. *)
Theorem load_data_from_local_path f w :
  os_path_join "" f = f ∧
  (String.prefix "/" f = true →
   ∀ d1 d2, load_data_from_local f d1 w = load_data_from_local f d2 w) ∧
  (∀ d, d ≠ "" → list.last (list_ascii_of_string d) ≠ Some "/"%char →
        load_data_from_local f (d +:+ "/") w = load_data_from_local f d w).
Proof.
  split; [| split].
  - unfold os_path_join. by destruct (String.prefix "/" f).
  - intros Habs d1 d2. unfold load_data_from_local, os_path_join. by rewrite Habs.
  - intros d Hd Hlast. unfold load_data_from_local.
    by rewrite os_path_join_trailing_slash.
Qed.
End names_more.

(** ** The form of an identifier *)

Section uuid_more.
Implicit Types (x u d : Z) (n i : nat) (h : list ascii).

Lemma hex_lookup n x i :
  (i < n)%nat →
  hex n x !! i = Some (hex_digit ((x / 16 ^ Z.of_nat (n - 1 - i)) mod 16)).
Proof.
  revert x i. induction n as [|n IH]; intros x i Hi; [lia |]. simpl.
  destruct (decide (i = n)) as [->|Hne].
  - rewrite list_lookup_middle by (by rewrite length_hex).
    replace (n - 0 - n)%nat with 0%nat by lia. by rewrite Z.pow_0_r, Z.div_1_r.
  - rewrite lookup_app_l by (rewrite length_hex; lia).
    rewrite IH by lia. do 2 f_equal.
    replace (n - 0 - i)%nat with (S (n - 1 - i)) by lia.
    rewrite Nat2Z.inj_succ, Z.pow_succ_r by lia.
    rewrite Z.div_div by lia. done.
Qed.

Lemma hex_digit_in_alphabet d :
  0 ≤ d < 16 → hex_digit d ∈ list_ascii_of_string "0123456789abcdef".
Proof.
  intros Hd.
  assert (d = 0 ∨ d = 1 ∨ d = 2 ∨ d = 3 ∨ d = 4 ∨ d = 5 ∨ d = 6 ∨ d = 7 ∨ d = 8 ∨
          d = 9 ∨ d = 10 ∨ d = 11 ∨ d = 12 ∨ d = 13 ∨ d = 14 ∨ d = 15) as Hc by lia.
  repeat (destruct Hc as [-> | Hc];
          [apply (bool_decide_unpack _); vm_compute; exact I |]).
  subst. apply (bool_decide_unpack _). vm_compute. exact I.
Qed.

Lemma hex_in_alphabet n x :
  Forall (λ c, c ∈ list_ascii_of_string "0123456789abcdef") (hex n x).
Proof.
  revert x. induction n as [|n IH]; intros x; simpl; [constructor |].
  apply Forall_app. split; [apply IH |].
  constructor; [| constructor]. apply hex_digit_in_alphabet, Z.mod_pos_bound. lia.
Qed.

Lemma nibble_testbit u p k :
  0 ≤ p → 0 ≤ k < 4 →
  Z.testbit ((u / 2 ^ p) mod 16) k = Z.testbit u (k + p).
Proof.
  intros Hp Hk. change 16 with (2 ^ 4).
  rewrite Z.testbit_mod_pow2 by lia.
  rewrite (proj2 (Z.ltb_lt k 4)) by lia. simpl.
  by rewrite Z.div_pow2_bits by lia.
Qed.

Lemma nibble_cases d :
  0 ≤ d < 16 →
  d = 0 ∨ d = 1 ∨ d = 2 ∨ d = 3 ∨ d = 4 ∨ d = 5 ∨ d = 6 ∨ d = 7 ∨ d = 8 ∨
  d = 9 ∨ d = 10 ∨ d = 11 ∨ d = 12 ∨ d = 13 ∨ d = 14 ∨ d = 15.
Proof. lia. Qed.

Lemma uuid4_version_nibble x : (uuid4_int x / 16 ^ 19) mod 16 = 4.
Proof.
  change (16 ^ 19) with (2 ^ 76).
  set (d := (uuid4_int x / 2 ^ 76) mod 16).
  assert (0 ≤ d < 16) as Hd by (apply Z.mod_pos_bound; lia).
  assert (Z.testbit d 0 = false) as H0.
  { unfold d. rewrite nibble_testbit, uuid4_int_testbit by lia. reflexivity. }
  assert (Z.testbit d 1 = false) as H1.
  { unfold d. rewrite nibble_testbit, uuid4_int_testbit by lia. reflexivity. }
  assert (Z.testbit d 2 = true) as H2.
  { unfold d. rewrite nibble_testbit, uuid4_int_testbit by lia. reflexivity. }
  assert (Z.testbit d 3 = false) as H3.
  { unfold d. rewrite nibble_testbit, uuid4_int_testbit by lia. reflexivity. }
  clearbody d. apply nibble_cases in Hd.
  repeat (destruct Hd as [->|Hd]; [first [reflexivity | discriminate] |]).
  subst d. discriminate.
Qed.

Lemma uuid4_variant_nibble x : 8 ≤ (uuid4_int x / 16 ^ 15) mod 16 < 12.
Proof.
  change (16 ^ 15) with (2 ^ 60).
  set (d := (uuid4_int x / 2 ^ 60) mod 16).
  assert (0 ≤ d < 16) as Hd by (apply Z.mod_pos_bound; lia).
  assert (Z.testbit d 2 = false) as H2.
  { unfold d. rewrite nibble_testbit, uuid4_int_testbit by lia. reflexivity. }
  assert (Z.testbit d 3 = true) as H3.
  { unfold d. rewrite nibble_testbit, uuid4_int_testbit by lia. reflexivity. }
  clearbody d. apply nibble_cases in Hd.
  repeat (destruct Hd as [->|Hd]; [first [lia | discriminate] |]).
  subst d. discriminate.
Qed.

Lemma uuid_groups_lookup h :
  length h = 32%nat →
  let g := slice 0 8 h ++ "-"%char :: slice 8 12 h ++ "-"%char :: slice 12 16 h ++
           "-"%char :: slice 16 20 h ++ "-"%char :: drop 20 h in
  length g = 36%nat ∧
  g !! 8%nat = Some "-"%char ∧ g !! 13%nat = Some "-"%char ∧
  g !! 18%nat = Some "-"%char ∧ g !! 23%nat = Some "-"%char ∧
  g !! 14%nat = h !! 12%nat ∧ g !! 19%nat = h !! 16%nat.
Proof.
  intros Hh.
  do 32 (destruct h as [|? h]; [discriminate Hh |]).
  destruct h; [| discriminate Hh].
  repeat split; reflexivity.
Qed.

Lemma uuid_groups_digits (P : ascii → Prop) h :
  length h = 32%nat → Forall P h →
  ∀ i c,
    (slice 0 8 h ++ "-"%char :: slice 8 12 h ++ "-"%char :: slice 12 16 h ++
       "-"%char :: slice 16 20 h ++ "-"%char :: drop 20 h) !! i = Some c →
    i ∉ [8; 13; 18; 23]%nat → P c.
Proof.
  intros Hh HP.
  do 32 (destruct h as [|? h]; [discriminate Hh |]).
  destruct h; [| discriminate Hh].
  repeat match goal with
         | H : Forall _ (_ :: _) |- _ => inversion H; subst; clear H
         end.
  intros i c Hi Hnot.
  do 36 (destruct i as [|i];
         [first [by injection Hi as <-
                | exfalso; apply Hnot; apply (bool_decide_unpack _); vm_compute; exact I] |]).
  discriminate Hi.
Qed.

(** X16.  Every identifier is a string of 36 characters in the groups
    8-4-4-4-12: a hyphen at positions 8, 13, 18 and 23 and a lower-case
    hexadecimal digit at every other position, the version digit [4] at
    position 14 and one of [8], [9], [a], [b] at position 19, whatever
    the random source returned. *)
Theorem uuid_str_format x :
  let s := uuid_str (uuid4_int x) in
  String.length s = 36%nat ∧
  (∀ i, i ∈ [8; 13; 18; 23]%nat → String.get i s = Some "-"%char) ∧
  (∀ i c, String.get i s = Some c → i ∉ [8; 13; 18; 23]%nat →
          c ∈ list_ascii_of_string "0123456789abcdef") ∧
  String.get 14 s = Some "4"%char ∧
  (∃ v, String.get 19 s = Some v ∧ v ∈ list_ascii_of_string "89ab").
Proof.
  intros s. subst s. unfold uuid_str.
  set (h := hex 32 (uuid4_int x)).
  destruct (uuid_groups_lookup h (length_hex 32 _)) as (Hlen & H8 & H13 & H18 & H23 & H14 & H19).
  cbv zeta in *.
  rewrite length_string_of_list_ascii. split; [done |].
  split; [| split; [| split]].
  - intros i Hi. rewrite get_string_of_list_ascii.
    repeat (apply elem_of_cons in Hi as [->|Hi]; [done |]). by apply elem_of_nil in Hi.
  - intros i c. rewrite get_string_of_list_ascii.
    apply (uuid_groups_digits (λ a, a ∈ list_ascii_of_string "0123456789abcdef") h);
      [apply length_hex | apply hex_in_alphabet].
  - rewrite get_string_of_list_ascii, H14. unfold h.
    rewrite hex_lookup by lia. change (Z.of_nat (32 - 1 - 12)) with 19.
    by rewrite uuid4_version_nibble.
  - rewrite get_string_of_list_ascii, H19. unfold h.
    rewrite hex_lookup by lia. change (Z.of_nat (32 - 1 - 16)) with 15.
    eexists. split; [done |].
    pose proof (uuid4_variant_nibble x) as Hv.
    set (d := (uuid4_int x / 16 ^ 15) mod 16) in *.
    assert (d = 8 ∨ d = 9 ∨ d = 10 ∨ d = 11) as Hc by lia.
    clearbody d.
    destruct Hc as [-> | [-> | [-> | ->]]];
      apply (bool_decide_unpack _); vm_compute; exact I.
Qed.
End uuid_more.

(** ** The empty batch *)

Section empty_more.
Implicit Types (w : world) (uri c : string).

(** X17.  An empty batch.  [seed_milvus] on a file holding an empty list
    deletes the collection and stores nothing, [seed_milvus_live] on an
    empty crawl leaves the index as it was; both still call
    [add_documents], with two empty lists, and draw no identifier. *)
Theorem empty_batch_effects :
  (∀ uri c filename directory w,
     fs w !! os_path_join directory filename = Some (Some (PyList [])) →
     ∃ vs w',
       seed_milvus uri c filename directory w = (Ok vs, w') ∧
       collections w' = delete (uri, c) (collections w) ∧
       drawn w' = drawn w ∧
       calls w' = calls w ++ [MilvusInit "text-embedding-3-large" uri c true;
                              AddDocuments uri c [] []]) ∧
  (∀ crawl_web URL uri c doc_name w h,
     crawl_web URL (heap w) = (Ok [], h) →
     ∃ vs w',
       seed_milvus_live crawl_web URL uri c doc_name w = (Ok vs, w') ∧
       collections w' = collections w ∧
       drawn w' = drawn w ∧
       heap w' = h ∧
       calls w' = calls w ++ [MilvusInit "text-embedding-3-large" uri c false;
                              AddDocuments uri c [] []]).
Proof.
  split.
  - intros uri c filename directory w Hfile.
    pose proof (seed_milvus_run uri c filename directory w (PyList []) [] Hfile eq_refl)
      as Hrun.
    cbv zeta in Hrun. eexists _, _. split; [exact Hrun |].
    cbn [collections drawn calls length]. by rewrite Nat.add_0_r.
  - intros crawl_web URL uri c doc_name w h Hcrawl.
    pose proof (seed_milvus_live_run crawl_web URL uri c doc_name w [] h Hcrawl) as Hrun.
    cbv zeta in Hrun. eexists _, _. split; [exact Hrun |].
    cbn [collections drawn calls heap length]. by rewrite Nat.add_0_r.
Qed.
End empty_more.

(** ** The further properties at concrete inputs *)

Section examples_more.

Lemma metadata_loop_depends_on_listed_objects_witness :
  (∀ x : loc, x ∈ [0; 1; 0]%nat ↔ x ∈ [1; 0]%nat) ∧
  heap (for_each [0; 1; 0]%nat (update_metadata "stack-ai") example_world).2 0%nat =
  heap (for_each [1; 0]%nat (update_metadata "stack-ai") example_world).2 0%nat.
Proof.
  assert (∀ x : loc, x ∈ [0; 1; 0]%nat ↔ x ∈ [1; 0]%nat) as Hsame.
  { intros x. rewrite !elem_of_cons, !elem_of_nil. tauto. }
  split; [exact Hsame |].
  apply (proj1 metadata_loop_depends_on_listed_objects "stack-ai" [0; 1; 0]%nat [1; 0]%nat
           example_world 0%nat Hsame).
Defined.

Lemma both_paths_normalise_alike_witness :
  example_record !! "metadata" = Some (PyDict example_metadata) ∧
  metadata (heap example_world 0%nat) = example_metadata ∧
  ∃ D, make_document (PyDict example_record) "stack-ai" = Ok D ∧
       metadata D = metadata (heap (update_metadata "stack-ai" 0%nat example_world).2 0%nat).
Proof.
  split; [reflexivity |]. split; [reflexivity |].
  apply (both_paths_normalise_alike example_record example_metadata "stack-ai"
           example_world 0%nat); reflexivity.
Defined.

Lemma seed_milvus_missing_metadata_key_witness :
  seed_milvus "http://localhost:19530" "data_test" "broken.json" "data_v3"
    example_broken_world = (Raise (KeyError "metadata"), example_broken_world).
Proof.
  apply (seed_milvus_missing_metadata_key "http://localhost:19530" "data_test"
           "broken.json" "data_v3" example_broken_world
           [PyDict example_record] {["page_content" := PyStr "text"]} [PyNone]).
  - reflexivity.
  - constructor; [| constructor].
    exists example_record, example_metadata. split; reflexivity.
  - reflexivity.
Defined.

Lemma seed_milvus_top_level_not_a_list_witness :
  example_record ≠ ∅ ∧
  seed_milvus "http://localhost:19530" "data_test" "object.json" "data_v3"
    example_broken_world = (Raise AttributeError, example_broken_world).
Proof.
  assert (example_record ≠ ∅) as Hne.
  { intros H. apply (f_equal (λ m, m !! "metadata")) in H. discriminate H. }
  split; [exact Hne |].
  apply (seed_milvus_top_level_not_a_list "http://localhost:19530" "data_test"
           "object.json" "data_v3" example_broken_world (PyDict example_record));
    [reflexivity | exact Hne].
Defined.

Lemma seed_milvus_live_crawl_failure_witness :
  ∃ w', seed_milvus_live failing_crawler "https://www.stack-ai.com/docs"
          "http://localhost:19530" "data_test_live_v2" "stack-ai" example_world
          = (Raise (OtherError "timeout"), w') ∧
        heap w' = heap example_world ∧ drawn w' = drawn example_world ∧
        collections w' = collections example_world ∧ calls w' = calls example_world.
Proof.
  apply (seed_milvus_live_crawl_failure failing_crawler "https://www.stack-ai.com/docs"
           "http://localhost:19530" "data_test_live_v2" "stack-ai" example_world
           (OtherError "timeout") (heap example_world)).
  reflexivity.
Defined.

Lemma seeding_after_crawling_and_back_witness :
  ∃ vs1 w1 vs2 w2,
    seed_milvus_live example_crawler "https://www.stack-ai.com/docs"
      "http://localhost:19530" "data_test" "stack-ai" example_world = (Ok vs1, w1) ∧
    seed_milvus "http://localhost:19530" "data_test" "stack_guide.json" "data_v3" w1
      = (Ok vs2, w2) ∧
    (stored w2 "http://localhost:19530" "data_test").*2 = example_documents "stack guide" ∧
    (stored w2 "http://localhost:19530" "data_test").*1 =
      uuid_at example_world <$>
        seq (drawn example_world + length [0; 1; 0]%nat)
            (length (example_documents "stack guide")).
Proof.
  apply (seeding_after_crawling_and_back example_crawler "https://www.stack-ai.com/docs"
           "stack-ai" "http://localhost:19530" "data_test" "stack_guide.json" "data_v3"
           example_world (PyList [PyDict example_record; PyDict example_bare_record])
           (example_documents "stack guide") [0; 1; 0]%nat (heap example_world));
    reflexivity.
Defined.

Lemma seed_milvus_rerun_same_documents_witness :
  ∃ vs1 w1 vs2 w2,
    seed_milvus "http://localhost:19530" "data_test" "stack_guide.json" "data_v3"
      example_world = (Ok vs1, w1) ∧
    seed_milvus "http://localhost:19530" "data_test" "stack_guide.json" "data_v3" w1
      = (Ok vs2, w2) ∧
    (stored w1 "http://localhost:19530" "data_test").*2 = example_documents "stack guide" ∧
    (stored w2 "http://localhost:19530" "data_test").*2 = example_documents "stack guide" ∧
    (stored w2 "http://localhost:19530" "data_test").*1 =
      uuid_at example_world <$>
        seq (drawn example_world + length (example_documents "stack guide"))
            (length (example_documents "stack guide")).
Proof.
  apply (seed_milvus_rerun_same_documents "http://localhost:19530" "data_test"
           "stack_guide.json" "data_v3" example_world
           (PyList [PyDict example_record; PyDict example_bare_record]));
    reflexivity.
Defined.

Lemma connect_to_milvus_after_seeding_witness :
  ∃ vs w1 w2,
    seed_milvus "http://localhost:19530" "data_test" "stack_guide.json" "data_v3"
      example_world = (Ok vs, w1) ∧
    connect_to_milvus "http://localhost:19530" "data_test" w1 = (Ok vs, w2) ∧
    embedding_function vs = "text-embedding-3-large" ∧
    (stored w2 "http://localhost:19530" "data_test").*2 = example_documents "stack guide".
Proof.
  apply (proj1 connect_to_milvus_after_seeding "http://localhost:19530" "data_test"
           "stack_guide.json" "data_v3" example_world
           (PyList [PyDict example_record; PyDict example_bare_record]));
    reflexivity.
Defined.

Lemma main_seeds_data_test_witness :
  (∃ w', main example_main_world = (Ok (), w') ∧
         (stored w' "http://localhost:19530" "data_test").*2 =
           [mkDocument (PyStr "hello") (live_metadata example_metadata "stack")] ∧
         Forall (λ D, metadata D !! "doc_name" = Some (PyStr "stack"))
                [mkDocument (PyStr "hello") (live_metadata example_metadata "stack")] ∧
         ∀ key, key ≠ ("http://localhost:19530", "data_test") →
                collections w' !! key = collections example_main_world !! key) ∧
  main world0 = (Raise OSError, world0).
Proof.
  split.
  - apply (proj1 (main_seeds_data_test example_main_world)
             (PyList [PyDict example_record])); reflexivity.
  - apply (proj2 (main_seeds_data_test world0)). reflexivity.
Defined.

Lemma doc_name_of_no_underscore_witness :
  str_contains "." "user_guide.v2.json" ∧
  (String.length (doc_name_of "user_guide.v2.json") < String.length "user_guide.v2.json")%nat.
Proof.
  assert (str_contains "." "user_guide.v2.json") as Hdot.
  { unfold str_contains. apply (bool_decide_unpack _). vm_compute. exact I. }
  split; [exact Hdot |].
  exact (proj2 (proj2 (doc_name_of_no_underscore "user_guide.v2.json")) Hdot).
Defined.

Lemma load_data_from_local_path_witness :
  load_data_from_local "stack_guide.json" "data_v3/" example_world =
  load_data_from_local "stack_guide.json" "data_v3" example_world.
Proof.
  apply (proj2 (proj2 (load_data_from_local_path "stack_guide.json" example_world))
           "data_v3"); [done | by vm_compute].
Defined.
Lemma empty_batch_effects_witness :
  ∃ vs w',
    seed_milvus_live empty_crawler "https://www.stack-ai.com/docs"
      "http://localhost:19530" "data_test_live_v2" "stack-ai" example_main_world
      = (Ok vs, w') ∧
    collections w' = collections example_main_world ∧
    drawn w' = drawn example_main_world ∧
    heap w' = heap example_main_world ∧
    calls w' = calls example_main_world ++
               [MilvusInit "text-embedding-3-large" "http://localhost:19530"
                  "data_test_live_v2" false;
                AddDocuments "http://localhost:19530" "data_test_live_v2" [] []].
Proof.
  apply (proj2 empty_batch_effects empty_crawler "https://www.stack-ai.com/docs"
           "http://localhost:19530" "data_test_live_v2" "stack-ai" example_main_world
           (heap example_main_world)).
  reflexivity.
Defined.
End examples_more.
